(** * The slash-command engine of the Zoom plugin (server/command.go)

    A shallow embedding of [server/command.go]: the command parser, the
    dispatcher, and the [start], [connect], [disconnect], [help] and
    [setting] operations, followed by the properties of the meeting-start
    decision engine.

    Go strings are byte sequences, so they are [string] here (a sequence of
    8-bit [ascii]).  A Go [int] is only ever compared with the sentinel
    [-1], so it is a [Z].  A run-time panic is the [Panicked] outcome.
    The collaborators of the plugin (the host API, the store helpers, the
    provider client) are an interface, [Collaborators], over an abstract
    world; every call is recorded in a trace of [Event]s so that the
    number and the arguments of the calls can be stated. *)

From Stdlib Require Import String Ascii List ZArith NArith Bool Lia.
Import ListNotations.
Local Open Scope string_scope.

(** ** Outcomes of code that may panic *)

Inductive outcome (A : Type) : Type :=
| Returned (a : A)
| Panicked (reason : string).
Arguments Returned {A} a.
Arguments Panicked {A} reason.

Definition obind {A B} (o : outcome A) (k : A -> outcome B) : outcome B :=
  match o with
  | Returned a => k a
  | Panicked r => Panicked r
  end.

(** [l[i]]: indexing panics out of range. *)
Definition index {A} (l : list A) (i : nat) : outcome A :=
  match nth_error l i with
  | Some a => Returned a
  | None => Panicked "index out of range"
  end.

(** [l[i:]]: slicing panics when [i] exceeds the length, and yields the
    empty slice when [i] equals it. *)
Definition sliceFrom {A} (i : nat) (l : list A) : outcome (list A) :=
  if Nat.leb i (length l) then Returned (skipn i l)
  else Panicked "slice bounds out of range".

(** ** The Go string library, as far as the commands use it *)

Module strings.

Definition byte_in (lo hi : N) (c : ascii) : bool :=
  (N.leb lo (N_of_ascii c) && N.leb (N_of_ascii c) hi)%bool.

Definition RuneError : N := 65533%N.

(** Payload bits of a continuation byte. *)
Definition cont (c : ascii) : N := N.land (N_of_ascii c) 63.

(** [utf8.DecodeRuneInString]: the code point at the head of [s] and the
    number of bytes it takes.  Any ill-formed or truncated sequence
    decodes as [RuneError] of width 1; so does the empty string, with
    width 0. *)
Definition DecodeRuneInString (s : string) : N * nat :=
  match s with
  | EmptyString => (RuneError, 0)
  | String b0 t0 =>
    let n0 := N_of_ascii b0 in
    if N.ltb n0 128 then (n0, 1)
    else if byte_in 194 223 b0 then
      match t0 with
      | String b1 _ =>
        if byte_in 128 191 b1
        then (N.lor (N.shiftl (N.land n0 31) 6) (cont b1), 2)
        else (RuneError, 1)
      | _ => (RuneError, 1)
      end
    else if byte_in 224 239 b0 then
      match t0 with
      | String b1 (String b2 _) =>
        let lo := if N.eqb n0 224 then 160%N else 128%N in
        let hi := if N.eqb n0 237 then 159%N else 191%N in
        if (byte_in lo hi b1 && byte_in 128 191 b2)%bool
        then (N.lor (N.shiftl (N.land n0 15) 12)
                    (N.lor (N.shiftl (cont b1) 6) (cont b2)), 3)
        else (RuneError, 1)
      | _ => (RuneError, 1)
      end
    else if byte_in 240 244 b0 then
      match t0 with
      | String b1 (String b2 (String b3 _)) =>
        let lo := if N.eqb n0 240 then 144%N else 128%N in
        let hi := if N.eqb n0 244 then 143%N else 191%N in
        if (byte_in lo hi b1 && byte_in 128 191 b2 && byte_in 128 191 b3)%bool
        then (N.lor (N.shiftl (N.land n0 7) 18)
                    (N.lor (N.shiftl (cont b1) 12)
                           (N.lor (N.shiftl (cont b2) 6) (cont b3))), 4)
        else (RuneError, 1)
      | _ => (RuneError, 1)
      end
    else (RuneError, 1)
  end.

(** [unicode.IsSpace]: the Latin-1 white space and the code points of the
    White_Space property beyond it. *)
Definition IsSpace (r : N) : bool :=
  if N.leb r 255 then
    (N.leb 9 r && N.leb r 13) || N.eqb r 32 || N.eqb r 133 || N.eqb r 160
  else
    N.eqb r 5760 || (N.leb 8192 r && N.leb r 8202) || N.eqb r 8232
    || N.eqb r 8233 || N.eqb r 8239 || N.eqb r 8287 || N.eqb r 12288.

Definition push (start : option string) (b : ascii) : option string :=
  match start with
  | Some f => Some (f ++ String b "")
  | None => None
  end.

Definition extend (start : option string) (b : ascii) : option string :=
  match start with
  | Some f => Some (f ++ String b "")
  | None => Some (String b "")
  end.

(** A field in progress holds at least its first byte. *)
Definition inProgress (start : option string) : Prop :=
  match start with Some f => f <> "" | None => True end.

(** The loop of [strings.FieldsFunc s unicode.IsSpace], byte by byte.
    [start] is the field in progress, if any ([start >= 0] in the Go
    code); [skip] counts the bytes of the rune just decoded that are
    still to be passed over. *)
Fixpoint fieldsLoop (s : string) (skip : nat) (start : option string)
  : list string :=
  match s with
  | EmptyString =>
    match start with Some f => [f] | None => [] end
  | String b rest =>
    match skip with
    | S k => fieldsLoop rest k (push start b)
    | O =>
      let (r, w) := DecodeRuneInString s in
      if IsSpace r then
        match start with
        | Some f => f :: fieldsLoop rest (pred w) None
        | None => fieldsLoop rest (pred w) None
        end
      else fieldsLoop rest (pred w) (extend start b)
    end
  end.

(** [strings.Fields]: the maximal runs of non-white-space of [s].  (The
    Go function has a fast path for all-ASCII input that returns the same
    slices.) *)
Definition Fields (s : string) : list string := fieldsLoop s 0 None.

(** [strings.Join]. *)
Fixpoint Join (elems : list string) (sep : string) : string :=
  match elems with
  | [] => ""
  | [e] => e
  | e :: more => e ++ sep ++ Join more sep
  end.

(** [strings.ReplaceAll] for a one-byte pattern. *)
Fixpoint ReplaceAll (s : string) (old : ascii) (new : string) : string :=
  match s with
  | EmptyString => ""
  | String b rest =>
    (if Ascii.eqb b old then new else String b "") ++ ReplaceAll rest old new
  end.

(** [strings.Contains]. *)
Fixpoint Contains (s substr : string) : bool :=
  String.prefix substr s ||
  match s with
  | EmptyString => false
  | String _ rest => Contains rest substr
  end.

End strings.

(** ** Constants of the command file *)

Definition zoomPreferenceCategory := "plugin:zoom".
Definition zoomPMISettingName := "use-pmi".
Definition zoomPMISettingValueAsk := "ask".
Definition preferenceUpdateError := "Cannot update preference in zoom setting".
Definition alreadyConnectedText := "Already connected".

Definition actionConnect := "connect".
Definition actionStart := "start".
Definition actionDisconnect := "disconnect".
Definition actionHelp := "help".

(** ** The command parser *)

Definition parseCommand (rawCommand : string)
  : outcome (string * string * string) :=
  let split := strings.Fields rawCommand in
  obind (index split 0) (fun cmd =>
  obind (if Nat.ltb 1 (length split) then index split 1 else Returned "")
        (fun action =>
  obind (if String.eqb action actionStart
         then obind (sliceFrom 2 split)
                    (fun rest => Returned (strings.Join rest " "))
         else Returned "")
        (fun topic =>
  Returned (cmd, action, topic)))).

(** ** Data model *)

(** [model.User], as far as the commands read it: the identifier and the
    answer of [IsSystemAdmin]. *)
Record User := { Id : string; IsSystemAdmin : bool }.

Record CommandArgs := {
  UserId : string;
  ChannelId : string;
  RootId : string;
  Command : string
}.

Record Post := {
  PostUserId : string;
  PostChannelId : string;
  PostMessage : string
}.

Record Preference := {
  PrefUserId : string;
  Category : string;
  Name : string;
  Value : string
}.

(** [zoom.User]: the provider identity; the commands read its [Pmi]. *)
Record ZoomUser := { ZoomId : string; Pmi : Z }.

(** [*model.AppError], by its rendered text. *)
Record AppError := { AppErrorText : string }.

(** Go [error] values: [None] is [nil]. *)
Inductive GoErr : Type :=
| errorsNew (msg : string)
| ofAppError (e : AppError)
| errorsWrap (cause : GoErr) (msg : string).

Definition error := option GoErr.

Fixpoint Error (e : GoErr) : string :=
  match e with
  | errorsNew msg => msg
  | ofAppError a => AppErrorText a
  | errorsWrap cause msg => msg ++ ": " ++ Error cause
  end.

Record AuthError := { Message : string; Err : error }.

Record Configuration := { EnableOAuth : bool; AccountLevelApp : bool }.

Record Plugin := { configuration : Configuration; botUserID : string }.

(** The sentinel of [runStartCommand]: no meeting decided. *)
Definition noMeeting : Z := (-1)%Z.

(** ** Constants declared in other files of the package *)

(** Modelled from the spec: the constant [trueString] is declared outside
    [command.go]; the persisted preference values are "true", "false",
    "ask" and the empty string. *)
Definition trueString := "true".

(** Modelled from the spec: the constant [falseString] is declared outside
    [command.go]; see [trueString]. *)
Definition falseString := "false".

(** Modelled from the spec: the constant [telemetryStartSourceCommand] is
    declared outside [command.go]; the start event of a command is tagged
    "command". *)
Definition telemetryStartSourceCommand := "command".

(** The remaining constants, of which only the name is known here:
    the topic given to every meeting, the key prefix of the per-user
    token, and [fmt.Sprintf zoom.OAuthPrompt] as a function of the site
    URL. *)
Record PackageConstants := {
  defaultMeetingTopic : string;
  zoomUserByMMID : string;
  OAuthPrompt : string -> string
}.

(** ** Calls to collaborators *)

Inductive Event : Type :=
| EvGetUser (userID : string)
| EvGetChannelMember (channelID userID : string)
| EvSendEphemeralPost (userID : string) (post : Post)
| EvLogWarn (msg : string) (keyValuePairs : list string)
| EvUpdatePreferencesForUser (userID : string) (prefs : list Preference)
| EvGetConfig
| EvCheckPreviousMessages (channelID : string)
| EvPostConfirm (meetingLink channelID topic userID rootID creatorName provider : string)
| EvAuthenticateAndFetchZoomUser (user : User)
| EvStoreOAuthUserState (userID channelID : string) (justConnect : bool)
| EvGetPMISettingData (userID : string)
| EvAskUserPMIMeeting (userID channelID : string)
| EvCreateMeetingWithoutPMI (user : User) (zoomUser : ZoomUser) (channelID topic : string)
| EvPostMeeting (creator : User) (meetingID : Z) (channelID rootID topic : string)
| EvTrackMeetingStart (userID source : string)
| EvGetSuperuserToken
| EvFetchOAuthUserInfo (tokenKey userID : string)
| EvRemoveSuperUserToken
| EvDisconnectOAuthUser (userID : string)
| EvTrackDisconnect (userID : string).

(** The host API ([p.API]) and the methods of the plugin that live in other
    files, as transitions of a world [W].  A Go function returning a value
    together with an error returns here one or the other; functions whose
    result the commands discard only change the world. *)
Record Collaborators (W : Type) := {
  GetUser : string -> W -> (User + AppError) * W;
  GetChannelMember : string -> string -> W -> option AppError * W;
  SendEphemeralPost : string -> Post -> W -> W;
  LogWarn : string -> list string -> W -> W;
  UpdatePreferencesForUser : string -> list Preference -> W -> option AppError * W;
  (** [*p.API.GetConfig().ServiceSettings.SiteURL]: the pointer may be nil *)
  GetConfigSiteURL : W -> option string * W;
  OAuthEnabled : W -> bool;
  checkPreviousMessages : string -> W -> (bool * string * string * string * option AppError) * W;
  postConfirm : string -> string -> string -> string -> string -> string -> string -> W -> W;
  authenticateAndFetchZoomUser : User -> W -> (ZoomUser + AuthError) * W;
  storeOAuthUserState : string -> string -> bool -> W -> option AppError * W;
  getPMISettingData : string -> W -> (string * option AppError) * W;
  askUserPMIMeeting : string -> string -> W -> W;
  createMeetingWithoutPMI : User -> ZoomUser -> string -> string -> W -> (Z * error) * W;
  postMeeting : User -> Z -> string -> string -> string -> W -> error * W;
  trackMeetingStart : string -> string -> W -> W;
  (** [(token, err)]: [true] stands for a token that is not nil *)
  getSuperuserToken : W -> (bool * error) * W;
  fetchOAuthUserInfo : string -> string -> W -> error * W;
  removeSuperUserToken : W -> error * W;
  disconnectOAuthUser : string -> W -> error * W;
  trackDisconnect : string -> W -> W
}.

Arguments GetUser {W}.
Arguments GetChannelMember {W}.
Arguments SendEphemeralPost {W}.
Arguments LogWarn {W}.
Arguments UpdatePreferencesForUser {W}.
Arguments GetConfigSiteURL {W}.
Arguments OAuthEnabled {W}.
Arguments checkPreviousMessages {W}.
Arguments postConfirm {W}.
Arguments authenticateAndFetchZoomUser {W}.
Arguments storeOAuthUserState {W}.
Arguments getPMISettingData {W}.
Arguments askUserPMIMeeting {W}.
Arguments createMeetingWithoutPMI {W}.
Arguments postMeeting {W}.
Arguments trackMeetingStart {W}.
Arguments getSuperuserToken {W}.
Arguments fetchOAuthUserInfo {W}.
Arguments removeSuperUserToken {W}.
Arguments disconnectOAuthUser {W}.
Arguments trackDisconnect {W}.

(** ** The monad of commands: world, panic, trace *)

Definition M (W A : Type) : Type := W -> outcome A * W * list Event.

Definition ret {W A} (a : A) : M W A := fun w => (Returned a, w, []).

Definition bind {W A B} (m : M W A) (k : A -> M W B) : M W B :=
  fun w =>
    match m w with
    | (Returned a, w1, t1) =>
      let '(b, w2, t2) := k a w1 in (b, w2, (t1 ++ t2)%list)
    | (Panicked r, w1, t1) => (Panicked r, w1, t1)
    end.

Definition lift {W A} (o : outcome A) : M W A := fun w => (o, w, []).

(** A call that answers. *)
Definition call {W R} (e : Event) (op : W -> R * W) : M W R :=
  fun w => let (r, w') := op w in (Returned r, w', [e]).

(** A call whose answer, if any, is dropped. *)
Definition exec {W} (e : Event) (op : W -> W) : M W unit :=
  fun w => (Returned tt, op w, [e]).

Declare Scope cmd_scope.
Delimit Scope cmd_scope with cmd.
Notation "x <- m ;; k" := (bind m (fun x => k))
  (at level 61, m at next level, right associativity) : cmd_scope.
Notation "' pat <- m ;; k" := (bind m (fun x => match x with pat => k end))
  (at level 61, pat pattern, m at next level, right associativity) : cmd_scope.
Notation "m ;; k" := (bind m (fun _ => k))
  (at level 61, right associativity) : cmd_scope.

Definition result {W A} (r : outcome A * W * list Event) : outcome A := fst (fst r).
Definition world {W A} (r : outcome A * W * list Event) : W := snd (fst r).
Definition trace {W A} (r : outcome A * W * list Event) : list Event := snd r.

(** Counting the calls of one kind in a trace. *)
Definition count (p : Event -> bool) (t : list Event) : nat :=
  length (filter p t).

Definition isCreateMeeting (e : Event) : bool :=
  match e with EvCreateMeetingWithoutPMI _ _ _ _ => true | _ => false end.
Definition isAskPrompt (e : Event) : bool :=
  match e with EvAskUserPMIMeeting _ _ => true | _ => false end.
Definition isPostMeeting (e : Event) : bool :=
  match e with EvPostMeeting _ _ _ _ _ => true | _ => false end.
Definition isTrackMeetingStart (e : Event) : bool :=
  match e with EvTrackMeetingStart _ _ => true | _ => false end.
Definition isPostConfirm (e : Event) : bool :=
  match e with EvPostConfirm _ _ _ _ _ _ _ => true | _ => false end.
Definition isPreferenceWrite (e : Event) : bool :=
  match e with EvUpdatePreferencesForUser _ _ => true | _ => false end.
Definition isStoreState (e : Event) : bool :=
  match e with EvStoreOAuthUserState _ _ _ => true | _ => false end.

(** ** Help texts *)

Definition nl : string := String "010"%char "".
Definition tab : string := String "009"%char "".
Definition dquote : string := String "034"%char "".

Definition starterText :=
  "###### Mattermost Zoom Plugin - Slash Command Help" ++ nl.
Definition helpText := "* |/zoom start| - Start a zoom meeting".
Definition oAuthHelpText := "* |/zoom disconnect| - Disconnect from zoom".
Definition settingHelpText := "* |/zoom setting| - Configure setting options".
Definition settingPMIHelpText :=
  "* |/zoom setting use_pmi [true/false/ask]| - " ++ nl ++ tab ++ tab
  ++ "enable / disable / undecide to use PMI to create meeting" ++ nl ++ tab.

(** ** The commands *)

Section Commands.

Context {W : Type} (x : Collaborators W) (k : PackageConstants) (p : Plugin).

Local Open Scope cmd_scope.

Definition isNil {A} (e : option A) : bool :=
  match e with None => true | Some _ => false end.

Definition postCommandResponse (args : CommandArgs) (text : string) : M W unit :=
  let post := {| PostUserId := botUserID p;
                 PostChannelId := ChannelId args;
                 PostMessage := text |} in
  exec (EvSendEphemeralPost (UserId args) post)
       (SendEphemeralPost x (UserId args) post).

Definition canConnect (user : User) : M W bool :=
  fun w =>
    (Returned (OAuthEnabled x w &&
               (negb (AccountLevelApp (configuration p)) || IsSystemAdmin user)),
     w, []).

(** Lines 149 to 165 of [runStartCommand]: the values of [meetingID] and
    [createMeetingErr] after the preference switch. *)
Definition decideMeeting (args : CommandArgs) (user : User) (zoomUser : ZoomUser)
  : M W (Z * error) :=
  '(userPMISettingPref, getUserPMISettingErr) <-
     call (EvGetPMISettingData (Id user)) (getPMISettingData x (Id user)) ;;
  match getUserPMISettingErr with
  | None =>
    if String.eqb userPMISettingPref "" ||
       String.eqb userPMISettingPref zoomPMISettingValueAsk then
      exec (EvAskUserPMIMeeting (Id user) (ChannelId args))
           (askUserPMIMeeting x (Id user) (ChannelId args)) ;;
      ret (noMeeting, None)
    else if String.eqb userPMISettingPref trueString then
      ret (Pmi zoomUser, None)
    else
      call (EvCreateMeetingWithoutPMI user zoomUser (ChannelId args)
                                      (defaultMeetingTopic k))
           (createMeetingWithoutPMI x user zoomUser (ChannelId args)
                                    (defaultMeetingTopic k))
  | Some _ =>
    exec (EvAskUserPMIMeeting (Id user) (ChannelId args))
         (askUserPMIMeeting x (Id user) (ChannelId args)) ;;
    ret (noMeeting, None)
  end.

(** Lines 166 to 178 of [runStartCommand]. *)
Definition postAndTrack (args : CommandArgs) (user : User)
           (meetingID : Z) (createMeetingErr : error) : M W (string * error) :=
  if Z.eqb meetingID noMeeting && isNil createMeetingErr then
    ret ("", None)
  else if Z.eqb meetingID noMeeting || negb (isNil createMeetingErr) then
    ret ("", Some (errorsNew "error while create new meeting"))
  else
    postMeetingErr <-
      call (EvPostMeeting user meetingID (ChannelId args) (RootId args)
                          (defaultMeetingTopic k))
           (postMeeting x user meetingID (ChannelId args) (RootId args)
                        (defaultMeetingTopic k)) ;;
    match postMeetingErr with
    | Some e => ret ("", Some e)
    | None =>
      exec (EvTrackMeetingStart (UserId args) telemetryStartSourceCommand)
           (trackMeetingStart x (UserId args) telemetryStartSourceCommand) ;;
      ret ("", None)
    end.

(** The auth guard of [runStartCommand] when the identity is not resolved
    (lines 143 to 147). *)
Definition deferToOAuth (args : CommandArgs) (user : User) (authErr : AuthError)
  : M W (string * error) :=
  appErr <- call (EvStoreOAuthUserState (Id user) (ChannelId args) false)
                 (storeOAuthUserState x (Id user) (ChannelId args) false) ;;
  match appErr with
  | Some _ => exec (EvLogWarn "failed to store user state" [])
                   (LogWarn x "failed to store user state" [])
  | None => ret tt
  end ;;
  ret (Message authErr, Err authErr).

Definition runStartCommand (args : CommandArgs) (user : User) (topic : string)
  : M W (string * error) :=
  memberErr <- call (EvGetChannelMember (ChannelId args) (Id user))
                    (GetChannelMember x (ChannelId args) (Id user)) ;;
  match memberErr with
  | Some _ =>
    ret ("We could not get channel members (channelId: " ++ ChannelId args ++ ")",
         None)
  | None =>
    '(recentMeeting, recentMeetingLink, creatorName, provider, appErr) <-
       call (EvCheckPreviousMessages (ChannelId args))
            (checkPreviousMessages x (ChannelId args)) ;;
    match appErr with
    | Some _ => ret ("Error checking previous messages", None)
    | None =>
      if recentMeeting : bool then
        exec (EvPostConfirm recentMeetingLink (ChannelId args) topic (Id user)
                            (RootId args) creatorName provider)
             (postConfirm x recentMeetingLink (ChannelId args) topic (Id user)
                          (RootId args) creatorName provider) ;;
        ret ("", None)
      else
        auth <- call (EvAuthenticateAndFetchZoomUser user)
                     (authenticateAndFetchZoomUser x user) ;;
        match auth with
        | inr authErr => deferToOAuth args user authErr
        | inl zoomUser =>
          '(meetingID, createMeetingErr) <- decideMeeting args user zoomUser ;;
          postAndTrack args user meetingID createMeetingErr
        end
    end
  end.

(** Lines 197 to 201 and 210 to 214 of [runConnectCommand]. *)
Definition storeAndPrompt (user : User) (extra : CommandArgs) (oauthMsg : string)
  : M W (string * error) :=
  appErr <- call (EvStoreOAuthUserState (Id user) (ChannelId extra) true)
                 (storeOAuthUserState x (Id user) (ChannelId extra) true) ;;
  match appErr with
  | Some e => ret ("", Some (errorsWrap (ofAppError e) "cannot store state"))
  | None => ret (oauthMsg, None)
  end.

Definition runConnectCommand (user : User) (extra : CommandArgs)
  : M W (string * error) :=
  can <- canConnect user ;;
  if negb can then ret ("Unknown action `connect`", None)
  else
    site <- call EvGetConfig (GetConfigSiteURL x) ;;
    siteURL <- lift (match site with
                     | Some u => Returned u
                     | None => Panicked "nil pointer dereference"
                     end) ;;
    let oauthMsg := OAuthPrompt k siteURL in
    if AccountLevelApp (configuration p) then
      '(token, err) <- call EvGetSuperuserToken (getSuperuserToken x) ;;
      if isNil err && token then ret (alreadyConnectedText, None)
      else storeAndPrompt user extra oauthMsg
    else
      err <- call (EvFetchOAuthUserInfo (zoomUserByMMID k) (Id user))
                  (fetchOAuthUserInfo x (zoomUserByMMID k) (Id user)) ;;
      if isNil err then ret (alreadyConnectedText, None)
      else storeAndPrompt user extra oauthMsg.

Definition runDisconnectCommand (user : User) : M W (string * error) :=
  can <- canConnect user ;;
  if negb can then ret ("Unknown action `disconnect`", None)
  else if AccountLevelApp (configuration p) then
    err <- call EvRemoveSuperUserToken (removeSuperUserToken x) ;;
    match err with
    | Some e => ret ("Error disconnecting, " ++ Error e, None)
    | None => ret ("Successfully disconnected from Zoom.", None)
    end
  else
    err <- call (EvDisconnectOAuthUser (Id user)) (disconnectOAuthUser x (Id user)) ;;
    match err with
    | Some e => ret ("Could not disconnect OAuth from zoom, " ++ Error e, None)
    | None =>
      exec (EvTrackDisconnect (Id user)) (trackDisconnect x (Id user)) ;;
      ret ("User disconnected from Zoom.", None)
    end.

Definition runHelpCommand : M W (string * error) :=
  let text := starterText ++ strings.ReplaceAll (helpText ++ settingHelpText) "|" "`" in
  let text := if EnableOAuth (configuration p)
              then text ++ nl ++ strings.ReplaceAll oAuthHelpText "|" "`"
              else text in
  ret (text, None).

Definition runPMISettingCommand (usePMIValue : string) (user : User)
  : M W (string * error) :=
  if String.eqb usePMIValue trueString || String.eqb usePMIValue falseString
     || String.eqb usePMIValue zoomPMISettingValueAsk then
    let prefs := [ {| PrefUserId := Id user;
                      Category := zoomPreferenceCategory;
                      Name := zoomPMISettingName;
                      Value := usePMIValue |} ] in
    appError <- call (EvUpdatePreferencesForUser (Id user) prefs)
                     (UpdatePreferencesForUser x (Id user) prefs) ;;
    match appError with
    | Some _ => ret (preferenceUpdateError, None)
    | None => ret ("Update successfully, use_pmi: " ++ usePMIValue, None)
    end
  else ret ("Unknown setting option " ++ usePMIValue, None).

Definition runSettingCommand (settingArgs : list string) (user : User)
  : M W (string * error) :=
  let settingAction := match settingArgs with a :: _ => a | [] => "" end in
  if String.eqb settingAction "use_pmi" then
    match settingArgs with
    | _ :: v :: _ => runPMISettingCommand v user
    | _ => ret ("Set PMI option to " ++ dquote ++ "true" ++ dquote ++ "|"
                ++ dquote ++ "false" ++ dquote ++ "|" ++ dquote ++ "ask" ++ dquote,
                None)
    end
  else if String.eqb settingAction "" then
    ret (strings.ReplaceAll (starterText ++ settingPMIHelpText) "|" "`", None)
  else ret ("Unknown Action " ++ settingAction, None).

Definition executeCommand (args : CommandArgs) : M W (string * error) :=
  let split := strings.Fields (Command args) in
  '(command, action, topic) <- lift (parseCommand (Command args)) ;;
  if negb (String.eqb command "/zoom") then
    ret ("Command '" ++ command ++ "' is not /zoom. Please try again.", None)
  else if String.eqb action "" then
    ret ("Please specify an action for /zoom command.", None)
  else
    let userID := UserId args in
    found <- call (EvGetUser userID) (GetUser x userID) ;;
    match found with
    | inr _ =>
      ret ("We could not retrieve user (userId: " ++ UserId args ++ ")", None)
    | inl user =>
      if String.eqb action actionConnect then runConnectCommand user args
      else if String.eqb action actionStart then runStartCommand args user topic
      else if String.eqb action actionDisconnect then runDisconnectCommand user
      else if String.eqb action actionHelp || String.eqb action "" then runHelpCommand
      else if String.eqb action "setting" then
        rest <- lift (sliceFrom 2 split) ;;
        runSettingCommand rest user
      else ret ("Unknown action " ++ action, None)
    end.

Definition ExecuteCommand (args : CommandArgs) : M W unit :=
  '(msg, err) <- executeCommand args ;;
  match err with
  | Some e => exec (EvLogWarn "failed to execute command" ["error"; Error e])
                   (LogWarn x "failed to execute command" ["error"; Error e])
  | None => ret tt
  end ;;
  if negb (String.eqb msg "") then postCommandResponse args msg else ret tt.

End Commands.

(** The record that [runPMISettingCommand] writes. *)
Definition pmiPreference (userID value : string) : Preference :=
  {| PrefUserId := userID;
     Category := zoomPreferenceCategory;
     Name := zoomPMISettingName;
     Value := value |}.

(** ** Vocabulary of the statements *)

(** A run [r] seen after the calls [t] that led to it. *)
Definition after {W A} (t : list Event) (r : outcome A * W * list Event)
  : outcome A * W * list Event :=
  (result r, world r, (t ++ trace r)%list).

Definition isLogWarn (e : Event) : bool :=
  match e with EvLogWarn _ _ => true | _ => false end.

(** The calls of the membership guard and of the recent-meeting guard. *)
Definition startGuardsTrace (args : CommandArgs) (user : User) : list Event :=
  [EvGetChannelMember (ChannelId args) (Id user);
   EvCheckPreviousMessages (ChannelId args)].

(** From [w], the user is a member of the channel and the detector answers,
    without error, that there is no recent meeting, leaving the world
    [w2]. *)
Definition passesGuards {W} (x : Collaborators W) (args : CommandArgs)
           (user : User) (w w2 : W) : Prop :=
  exists w1 link creator provider,
    GetChannelMember x (ChannelId args) (Id user) w = (None, w1)
    /\ checkPreviousMessages x (ChannelId args) w1
       = ((false, link, creator, provider, None), w2).

(** The calls of [runConnectCommand] before it stores the pending
    connection. *)
Definition connectTrace (k : PackageConstants) (p : Plugin) (user : User)
  : list Event :=
  EvGetConfig ::
  (if AccountLevelApp (configuration p) then [EvGetSuperuserToken]
   else [EvFetchOAuthUserInfo (zoomUserByMMID k) (Id user)]).

(** From [w], [runConnectCommand] comes to store the pending connection in
    the world [w2]: the user may connect, the site URL is [site], and
    either the deployment is account-level and no usable shared token is
    found, or it is user-level and no linked identity is found. *)
Definition connectNeedsState {W} (x : Collaborators W) (k : PackageConstants)
           (p : Plugin) (user : User) (w : W) (site : string) (w2 : W) : Prop :=
  (OAuthEnabled x w
   && (negb (AccountLevelApp (configuration p)) || IsSystemAdmin user) = true)
  /\ exists w1,
      GetConfigSiteURL x w = (Some site, w1)
      /\ if AccountLevelApp (configuration p)
         then exists token err,
             getSuperuserToken x w1 = ((token, err), w2)
             /\ isNil err && token = false
         else exists e,
             fetchOAuthUserInfo x (zoomUserByMMID k) (Id user) w1 = (Some e, w2).

(** ** A scripted world

    A concrete instance of the collaborators, in the manner of the mocks of
    a Go test: the answers are read from the world, and the preference
    store, the pending connections and the log are kept in it. *)

Module Script.

Record World := {
  users : list User;
  memberErr : option AppError;
  recent : bool * string * string * string * option AppError;
  identity : ZoomUser + AuthError;
  prefLookupErr : option AppError;
  prefs : list Preference;
  prefWriteErr : option AppError;
  pending : list (string * string * bool);
  storeErr : option AppError;
  created : Z * error;
  postErr : error;
  siteURL : option string;
  oauthOn : bool;
  superToken : bool * error;
  linked : error;
  warnings : list string
}.

Definition withPrefs (w : World) (ps : list Preference) : World :=
  {| users := users w; memberErr := memberErr w; recent := recent w;
     identity := identity w; prefLookupErr := prefLookupErr w; prefs := ps;
     prefWriteErr := prefWriteErr w; pending := pending w;
     storeErr := storeErr w; created := created w; postErr := postErr w;
     siteURL := siteURL w; oauthOn := oauthOn w; superToken := superToken w;
     linked := linked w; warnings := warnings w |}.

Definition withPending (w : World) (pc : list (string * string * bool)) : World :=
  {| users := users w; memberErr := memberErr w; recent := recent w;
     identity := identity w; prefLookupErr := prefLookupErr w; prefs := prefs w;
     prefWriteErr := prefWriteErr w; pending := pc;
     storeErr := storeErr w; created := created w; postErr := postErr w;
     siteURL := siteURL w; oauthOn := oauthOn w; superToken := superToken w;
     linked := linked w; warnings := warnings w |}.

Definition withWarnings (w : World) (ws : list string) : World :=
  {| users := users w; memberErr := memberErr w; recent := recent w;
     identity := identity w; prefLookupErr := prefLookupErr w; prefs := prefs w;
     prefWriteErr := prefWriteErr w; pending := pending w;
     storeErr := storeErr w; created := created w; postErr := postErr w;
     siteURL := siteURL w; oauthOn := oauthOn w; superToken := superToken w;
     linked := linked w; warnings := ws |}.

Definition isPMIPref (userID : string) (q : Preference) : bool :=
  String.eqb (PrefUserId q) userID
  && String.eqb (Category q) zoomPreferenceCategory
  && String.eqb (Name q) zoomPMISettingName.

Definition storedPMI (userID : string) (w : World) : string :=
  match find (isPMIPref userID) (prefs w) with
  | Some q => Value q
  | None => ""
  end.

Definition api : Collaborators World := {|
  GetUser := fun userID w =>
    (match find (fun u => String.eqb (Id u) userID) (users w) with
     | Some u => inl u
     | None => inr {| AppErrorText := "user not found" |}
     end, w);
  GetChannelMember := fun _ _ w => (memberErr w, w);
  SendEphemeralPost := fun _ _ w => w;
  LogWarn := fun msg _ w => withWarnings w (msg :: warnings w);
  UpdatePreferencesForUser := fun _ ps w =>
    match prefWriteErr w with
    | Some e => (Some e, w)
    | None => (None, withPrefs w (ps ++ prefs w)%list)
    end;
  GetConfigSiteURL := fun w => (siteURL w, w);
  OAuthEnabled := oauthOn;
  checkPreviousMessages := fun _ w => (recent w, w);
  postConfirm := fun _ _ _ _ _ _ _ w => w;
  authenticateAndFetchZoomUser := fun _ w => (identity w, w);
  storeOAuthUserState := fun userID channelID justConnect w =>
    match storeErr w with
    | Some e => (Some e, w)
    | None => (None, withPending w ((userID, channelID, justConnect) :: pending w))
    end;
  getPMISettingData := fun userID w =>
    match prefLookupErr w with
    | Some e => (("", Some e), w)
    | None => ((storedPMI userID w, None), w)
    end;
  askUserPMIMeeting := fun _ _ w => w;
  createMeetingWithoutPMI := fun _ _ _ _ w => (created w, w);
  postMeeting := fun _ _ _ _ _ w => (postErr w, w);
  trackMeetingStart := fun _ _ w => w;
  getSuperuserToken := fun w => (superToken w, w);
  fetchOAuthUserInfo := fun _ _ w => (linked w, w);
  removeSuperUserToken := fun w => (None, w);
  disconnectOAuthUser := fun _ w => (None, w);
  trackDisconnect := fun _ w => w
|}.

Definition consts : PackageConstants := {|
  defaultMeetingTopic := "Zoom Meeting";
  zoomUserByMMID := "zoomtoken_";
  OAuthPrompt := fun site =>
    "[Click here to link your Zoom account.](" ++ site ++ "/plugins/zoom/oauth2/connect)"
|}.

Definition alice : User := {| Id := "alice"; IsSystemAdmin := false |}.
Definition root : User := {| Id := "root"; IsSystemAdmin := true |}.
Definition zoomAlice : ZoomUser := {| ZoomId := "z-alice"; Pmi := 5550100 |}.

Definition userLevel : Plugin :=
  {| configuration := {| EnableOAuth := true; AccountLevelApp := false |};
     botUserID := "zoombot" |}.

Definition accountLevel : Plugin :=
  {| configuration := {| EnableOAuth := true; AccountLevelApp := true |};
     botUserID := "zoombot" |}.

Definition failure (text : string) : AppError := {| AppErrorText := text |}.

(** Alice is connected, nothing recent in the channel, every call succeeds,
    no preference stored. *)
Definition calm : World := {|
  users := [alice; root];
  memberErr := None;
  recent := (false, "", "", "", None);
  identity := inl zoomAlice;
  prefLookupErr := None;
  prefs := [];
  prefWriteErr := None;
  pending := [];
  storeErr := None;
  created := (7001, None)%Z;
  postErr := None;
  siteURL := Some "https://chat.example.org";
  oauthOn := true;
  superToken := (false, None);
  linked := Some (errorsNew "not connected");
  warnings := []
|}.

Definition prefers (value : string) (w : World) : World :=
  withPrefs w [ {| PrefUserId := "alice"; Category := zoomPreferenceCategory;
                   Name := zoomPMISettingName; Value := value |} ].

Definition storeDown (w : World) : World :=
  {| users := users w; memberErr := memberErr w; recent := recent w;
     identity := identity w; prefLookupErr := prefLookupErr w; prefs := prefs w;
     prefWriteErr := prefWriteErr w; pending := pending w;
     storeErr := Some (failure "kv store down"); created := created w;
     postErr := postErr w; siteURL := siteURL w; oauthOn := oauthOn w;
     superToken := superToken w; linked := linked w; warnings := warnings w |}.

Definition disconnected (w : World) : World :=
  {| users := users w; memberErr := memberErr w; recent := recent w;
     identity := inr {| Message := "You must connect to Zoom first";
                        Err := Some (errorsNew "no token") |};
     prefLookupErr := prefLookupErr w; prefs := prefs w;
     prefWriteErr := prefWriteErr w; pending := pending w;
     storeErr := storeErr w; created := created w;
     postErr := postErr w; siteURL := siteURL w; oauthOn := oauthOn w;
     superToken := superToken w; linked := linked w; warnings := warnings w |}.

Definition withRecent (w : World) : World :=
  {| users := users w; memberErr := memberErr w;
     recent := (true, "https://zoom.us/j/42", "bob", "Zoom", None);
     identity := identity w;
     prefLookupErr := prefLookupErr w; prefs := prefs w;
     prefWriteErr := prefWriteErr w; pending := pending w;
     storeErr := storeErr w; created := created w;
     postErr := postErr w; siteURL := siteURL w; oauthOn := oauthOn w;
     superToken := superToken w; linked := linked w; warnings := warnings w |}.

Definition prefsDown (w : World) : World :=
  {| users := users w; memberErr := memberErr w; recent := recent w;
     identity := identity w;
     prefLookupErr := Some (failure "preferences unavailable"); prefs := prefs w;
     prefWriteErr := Some (failure "preferences unavailable");
     pending := pending w;
     storeErr := storeErr w; created := created w;
     postErr := postErr w; siteURL := siteURL w; oauthOn := oauthOn w;
     superToken := superToken w; linked := linked w; warnings := warnings w |}.

Definition inChannel (userID command : string) : CommandArgs :=
  {| UserId := userID; ChannelId := "town-square"; RootId := ""; Command := command |}.

End Script.

(** ** More kinds of calls *)

Definition isEphemeralPost (e : Event) : bool :=
  match e with EvSendEphemeralPost _ _ => true | _ => false end.

(** The actions that [executeCommand] routes to an operation. *)
Definition routedActions : list string :=
  [actionConnect; actionStart; actionDisconnect; actionHelp; "setting"].

(** The values that [runPMISettingCommand] accepts. *)
Definition pmiSettingValues : list string :=
  [trueString; falseString; zoomPMISettingValueAsk].

(** ** Autocomplete data

    [model.AutocompleteData] values are built through pointers: a node that
    has been attached to its parent is still extended afterwards.  The
    nodes therefore live in a heap, and a pointer is an index into it. *)

Module Autocomplete.

Record ListItem := { Item : string; ItemHint : string; ItemHelpText : string }.

(** A static-list argument ([AutocompleteArgTypeStaticList]). *)
Record Arg := {
  ArgName : string;
  ArgHelpText : string;
  Required : bool;
  PossibleArguments : list ListItem
}.

Record Data := {
  Trigger : string;
  Hint : string;
  HelpText : string;
  Arguments : list Arg;
  SubCommands : list nat
}.

Definition Heap := list Data.

(** [model.NewAutocompleteData]: a fresh node without arguments or
    subcommands. *)
Definition NewAutocompleteData (trigger hint helpText : string) (h : Heap)
  : nat * Heap :=
  (length h,
   (h ++ [ {| Trigger := trigger; Hint := hint; HelpText := helpText;
              Arguments := []; SubCommands := [] |} ])%list).

Fixpoint update (h : Heap) (ptr : nat) (f : Data -> Data) : Heap :=
  match h, ptr with
  | [], _ => []
  | d :: rest, O => f d :: rest
  | d :: rest, S n => d :: update rest n f
  end.

(** [ad.AddCommand(command)]: the pointer is appended. *)
Definition AddCommand (ad command : nat) (h : Heap) : Heap :=
  update h ad (fun d =>
    {| Trigger := Trigger d; Hint := Hint d; HelpText := HelpText d;
       Arguments := Arguments d;
       SubCommands := (SubCommands d ++ [command])%list |}).

(** [ad.AddStaticListArgument(helpText, required, items)]. *)
Definition AddStaticListArgument (ad : nat) (helpText : string) (required : bool)
           (items : list ListItem) (h : Heap) : Heap :=
  update h ad (fun d =>
    {| Trigger := Trigger d; Hint := Hint d; HelpText := HelpText d;
       Arguments := (Arguments d ++
                     [ {| ArgName := ""; ArgHelpText := helpText;
                          Required := required;
                          PossibleArguments := items |} ])%list;
       SubCommands := SubCommands d |}).

Definition triggerOf (h : Heap) (ptr : nat) : string :=
  match nth_error h ptr with Some d => Trigger d | None => "" end.

Definition subcommandsOf (h : Heap) (ptr : nat) : list nat :=
  match nth_error h ptr with Some d => SubCommands d | None => [] end.

(** The triggers of the subcommands of a node, in order. *)
Definition offered (h : Heap) (ptr : nat) : list string :=
  map (triggerOf h) (subcommandsOf h ptr).

(** The subcommand of a node with a given trigger. *)
Definition child (h : Heap) (ptr : nat) (trigger : string) : option nat :=
  find (fun c => String.eqb (triggerOf h c) trigger) (subcommandsOf h ptr).

(** The items of the static-list arguments of a node. *)
Definition staticItems (h : Heap) (ptr : nat) : list string :=
  match nth_error h ptr with
  | Some d => flat_map (fun a => map Item (PossibleArguments a)) (Arguments d)
  | None => []
  end.

End Autocomplete.

Section AutocompleteData.

Context {W : Type} (x : Collaborators W) (p : Plugin).

Import Autocomplete.

(** [getAutocompleteData]: the pointer to the node of "zoom", and the heap
    it points into.  [p.OAuthEnabled()] is read in the world [w]. *)
Definition getAutocompleteData (w : W) : nat * Heap :=
  let available :=
      if EnableOAuth (configuration p) && negb (AccountLevelApp (configuration p))
      then "start, connect, disconnect, help, setting"
      else "start, help, setting" in
  let '(zoom, h) :=
      NewAutocompleteData "zoom" "[command]"
                          ("Available commands: " ++ available) [] in
  let '(start, h) :=
      NewAutocompleteData "start" "[meeting topic]" "Starts a Zoom meeting" h in
  let h := AddCommand zoom start h in
  let h :=
      if OAuthEnabled x w && negb (AccountLevelApp (configuration p)) then
        let '(connect, h) :=
            NewAutocompleteData "connect" "" "Connect to Zoom" h in
        let '(disconnect, h) :=
            NewAutocompleteData "disconnect" "" "Disonnects from Zoom" h in
        let h := AddCommand zoom connect h in
        AddCommand zoom disconnect h
      else h in
  let '(setting, h) :=
      NewAutocompleteData "setting" "[command]" "Configurates options" h in
  let h := AddCommand zoom setting h in
  let '(usePMI, h) :=
      NewAutocompleteData "use_pmi" "" "Use Personal Meeting ID" h in
  let usePMIItems :=
      [ {| Item := "ask"; ItemHint := "";
           ItemHelpText :=
             "Ask to start meeting with or without using Personal Meeting ID" |};
        {| Item := "true"; ItemHint := "";
           ItemHelpText := "Start meeting using Personal Meeting ID" |};
        {| Item := "false"; ItemHint := "";
           ItemHelpText := "Start meeting without using Personal Meeting ID" |} ] in
  let h := AddStaticListArgument usePMI "" false usePMIItems h in
  let h := AddCommand setting usePMI h in
  let '(help, h) := NewAutocompleteData "help" "" "Display usage" h in
  let h := AddCommand zoom help h in
  (zoom, h).

End AutocompleteData.

(** ** More scripted worlds *)

Module Scenes.

Import Script.

(** The provider refuses to create a meeting. *)
Definition creationDown (w : World) : World :=
  {| users := users w; memberErr := memberErr w; recent := recent w;
     identity := identity w; prefLookupErr := prefLookupErr w; prefs := prefs w;
     prefWriteErr := prefWriteErr w; pending := pending w;
     storeErr := storeErr w;
     created := (noMeeting, Some (errorsNew "provider timeout"));
     postErr := postErr w; siteURL := siteURL w; oauthOn := oauthOn w;
     superToken := superToken w; linked := linked w; warnings := warnings w |}.

(** The user is not a member of the channel. *)
Definition outsider (w : World) : World :=
  {| users := users w; memberErr := Some (failure "not a member");
     recent := recent w;
     identity := identity w; prefLookupErr := prefLookupErr w; prefs := prefs w;
     prefWriteErr := prefWriteErr w; pending := pending w;
     storeErr := storeErr w; created := created w;
     postErr := postErr w; siteURL := siteURL w; oauthOn := oauthOn w;
     superToken := superToken w; linked := linked w; warnings := warnings w |}.

(** The site URL is not configured. *)
Definition noSiteURL (w : World) : World :=
  {| users := users w; memberErr := memberErr w; recent := recent w;
     identity := identity w; prefLookupErr := prefLookupErr w; prefs := prefs w;
     prefWriteErr := prefWriteErr w; pending := pending w;
     storeErr := storeErr w; created := created w;
     postErr := postErr w; siteURL := None; oauthOn := oauthOn w;
     superToken := superToken w; linked := linked w; warnings := warnings w |}.

(** The user has linked an identity, and the shared token exists. *)
Definition connected (w : World) : World :=
  {| users := users w; memberErr := memberErr w; recent := recent w;
     identity := identity w; prefLookupErr := prefLookupErr w; prefs := prefs w;
     prefWriteErr := prefWriteErr w; pending := pending w;
     storeErr := storeErr w; created := created w;
     postErr := postErr w; siteURL := siteURL w; oauthOn := oauthOn w;
     superToken := (true, None); linked := None; warnings := warnings w |}.

(** An identity whose personal meeting number is the sentinel. *)
Definition noPMI (w : World) : World :=
  {| users := users w; memberErr := memberErr w; recent := recent w;
     identity := inl {| ZoomId := "z-alice"; Pmi := noMeeting |};
     prefLookupErr := prefLookupErr w; prefs := prefs w;
     prefWriteErr := prefWriteErr w; pending := pending w;
     storeErr := storeErr w; created := created w;
     postErr := postErr w; siteURL := siteURL w; oauthOn := oauthOn w;
     superToken := superToken w; linked := linked w; warnings := warnings w |}.

End Scenes.

(** ** Scanning a prefix

    The loop of [strings.Fields] stopped after [n] bytes: the fields that
    are complete by then, and the state in which the loop is.  This is the
    vocabulary of the statements on how parsing composes with joining. *)

Section Scanning.

Import strings.

Definition flush (start : option string) : list string :=
  match start with Some f => [f] | None => [] end.

Fixpoint scanTo (n : nat) (s : string) (skip : nat) (start : option string)
  : list string * nat * option string :=
  match n, s with
  | S n', String b rest =>
    match skip with
    | S k => scanTo n' rest k (push start b)
    | O =>
      let (r, w) := DecodeRuneInString s in
      if IsSpace r then
        let '(out, k, st) := scanTo n' rest (pred w) None in
        ((flush start ++ out)%list, k, st)
      else scanTo n' rest (pred w) (extend start b)
    end
  | _, _ => ([], skip, start)
  end.

(** A string that is one field on its own. *)
Definition word (g : string) : Prop := Fields g = [g].

(** The invariant of the scan: the field in progress, put back in front of
    what is left, is scanned into the present state. *)
Definition tracked (start : option string) (skip : nat) (s : string) : Prop :=
  match start with
  | Some g => scanTo (String.length g) (g ++ s) 0 None = ([], skip, Some g)
  | None => True
  end.

End Scanning.

(** The same invocation with another command text. *)
Definition withCommand (args : CommandArgs) (command : string) : CommandArgs :=
  {| UserId := UserId args; ChannelId := ChannelId args;
     RootId := RootId args; Command := command |}.

(** ** A world that keeps a journal

    The scripted world, with the list of the calls that were carried out
    on it: every collaborator answers as in the script and leaves its call
    in the journal. *)

Module Journal.

Definition World : Type := Script.World * list Event.

Definition fresh (s : Script.World) : World := (s, []).

Definition journal (w : World) : list Event := snd w.

Definition answering {R} (e : Event) (op : Script.World -> R * Script.World)
           (w : World) : R * World :=
  let (r, s) := op (fst w) in (r, (s, (snd w ++ [e])%list)).

Definition doing (e : Event) (op : Script.World -> Script.World) (w : World)
  : World :=
  (op (fst w), (snd w ++ [e])%list).

Definition api : Collaborators World := {|
  GetUser := fun userID =>
    answering (EvGetUser userID) (GetUser Script.api userID);
  GetChannelMember := fun channelID userID =>
    answering (EvGetChannelMember channelID userID)
              (GetChannelMember Script.api channelID userID);
  SendEphemeralPost := fun userID post =>
    doing (EvSendEphemeralPost userID post)
          (SendEphemeralPost Script.api userID post);
  LogWarn := fun msg kv =>
    doing (EvLogWarn msg kv) (LogWarn Script.api msg kv);
  UpdatePreferencesForUser := fun userID ps =>
    answering (EvUpdatePreferencesForUser userID ps)
              (UpdatePreferencesForUser Script.api userID ps);
  GetConfigSiteURL := answering EvGetConfig (GetConfigSiteURL Script.api);
  OAuthEnabled := fun w => OAuthEnabled Script.api (fst w);
  checkPreviousMessages := fun channelID =>
    answering (EvCheckPreviousMessages channelID)
              (checkPreviousMessages Script.api channelID);
  postConfirm := fun link channelID topic userID rootID creator provider =>
    doing (EvPostConfirm link channelID topic userID rootID creator provider)
          (postConfirm Script.api link channelID topic userID rootID creator
                       provider);
  authenticateAndFetchZoomUser := fun user =>
    answering (EvAuthenticateAndFetchZoomUser user)
              (authenticateAndFetchZoomUser Script.api user);
  storeOAuthUserState := fun userID channelID justConnect =>
    answering (EvStoreOAuthUserState userID channelID justConnect)
              (storeOAuthUserState Script.api userID channelID justConnect);
  getPMISettingData := fun userID =>
    answering (EvGetPMISettingData userID)
              (getPMISettingData Script.api userID);
  askUserPMIMeeting := fun userID channelID =>
    doing (EvAskUserPMIMeeting userID channelID)
          (askUserPMIMeeting Script.api userID channelID);
  createMeetingWithoutPMI := fun user zoomUser channelID topic =>
    answering (EvCreateMeetingWithoutPMI user zoomUser channelID topic)
              (createMeetingWithoutPMI Script.api user zoomUser channelID topic);
  postMeeting := fun creator meetingID channelID rootID topic =>
    answering (EvPostMeeting creator meetingID channelID rootID topic)
              (postMeeting Script.api creator meetingID channelID rootID topic);
  trackMeetingStart := fun userID source =>
    doing (EvTrackMeetingStart userID source)
          (trackMeetingStart Script.api userID source);
  getSuperuserToken :=
    answering EvGetSuperuserToken (getSuperuserToken Script.api);
  fetchOAuthUserInfo := fun tokenKey userID =>
    answering (EvFetchOAuthUserInfo tokenKey userID)
              (fetchOAuthUserInfo Script.api tokenKey userID);
  removeSuperUserToken :=
    answering EvRemoveSuperUserToken (removeSuperUserToken Script.api);
  disconnectOAuthUser := fun userID =>
    answering (EvDisconnectOAuthUser userID)
              (disconnectOAuthUser Script.api userID);
  trackDisconnect := fun userID =>
    doing (EvTrackDisconnect userID) (trackDisconnect Script.api userID)
|}.

End Journal.

(** * Properties *)

(** ** Runs of the parser and of the string library *)

Example parse_start_topic :
  parseCommand "/zoom start team sync" = Returned ("/zoom", "start", "team sync").
Proof. reflexivity. Qed.

Example parse_setting_has_no_topic :
  parseCommand "  /zoom   setting use_pmi  true "
  = Returned ("/zoom", "setting", "").
Proof. reflexivity. Qed.

Example parse_start_alone :
  parseCommand "/zoom start" = Returned ("/zoom", "start", "").
Proof. reflexivity. Qed.

Example fields_no_break_space :
  strings.Fields
    (String "a" (String (ascii_of_N 194) (String (ascii_of_N 160) "b")))
  = ["a"; "b"].
Proof. reflexivity. Qed.

Example fields_ideographic_space :
  strings.Fields
    (String "a" (String (ascii_of_N 227) (String (ascii_of_N 128)
       (String (ascii_of_N 128) "b"))))
  = ["a"; "b"].
Proof. reflexivity. Qed.

Example fields_keeps_other_runes :
  strings.Fields
    (String (ascii_of_N 195) (String (ascii_of_N 169) " x"))
  = [String (ascii_of_N 195) (String (ascii_of_N 169) ""); "x"].
Proof. reflexivity. Qed.

(** ** Fields are never empty *)

Section FieldsFacts.

Import strings.

Lemma append_byte_nonempty (f : string) (b : ascii) : f ++ String b "" <> "".
Proof. destruct f; simpl; discriminate. Qed.

Lemma push_inProgress start b : inProgress start -> inProgress (push start b).
Proof.
  destruct start as [f|]; simpl; auto. intros _. apply append_byte_nonempty.
Qed.

Lemma extend_inProgress start b : inProgress (extend start b).
Proof.
  destruct start as [f|]; simpl; [apply append_byte_nonempty | discriminate].
Qed.

Lemma fieldsLoop_nonempty (s : string) :
  forall skip start, inProgress start ->
    Forall (fun f => f <> "") (fieldsLoop s skip start).
Proof.
  induction s as [|b rest IH]; intros skip start Hstart.
  - destruct start as [f|]; simpl; auto.
  - cbn [fieldsLoop]. destruct skip as [|skip'].
    + destruct (DecodeRuneInString (String b rest)) as [r w].
      destruct (IsSpace r).
      * destruct start as [f|].
        -- constructor; [exact Hstart | apply IH; exact I].
        -- apply IH; exact I.
      * apply IH, extend_inProgress.
    + apply IH, push_inProgress, Hstart.
Qed.

Lemma Fields_nonempty (s : string) : Forall (fun f => f <> "") (Fields s).
Proof. apply fieldsLoop_nonempty; exact I. Qed.

Lemma Join_cons_nonempty (e : string) (more : list string) (sep : string) :
  e <> "" -> Join (e :: more) sep <> "".
Proof.
  intros He. destruct more as [|e' more']; simpl.
  - exact He.
  - destruct e; [congruence | simpl; discriminate].
Qed.

End FieldsFacts.

(** ** The command parser *)

Lemma parseCommand_unfold (raw cmd : string) (more : list string) :
  strings.Fields raw = cmd :: more ->
  parseCommand raw =
  Returned (cmd, hd "" more,
            if String.eqb (hd "" more) actionStart
            then strings.Join (tl more) " " else "").
Proof.
  intros Hsplit. unfold parseCommand. rewrite Hsplit.
  destruct more as [|action rest]; [reflexivity|].
  cbn. destruct (String.eqb action actionStart); reflexivity.
Qed.

(** C7. Whenever the raw command has at least one white-space-delimited
    token, [parseCommand] returns: [cmd] is the first token, [action] the
    second (empty when there is only one), and [topic] is non-empty exactly
    when [action] is "start" and there are at least three tokens, in which
    case it is the tokens after the second joined with single spaces. *)
Theorem parseCommand_tokens (raw cmd : string) (more : list string) :
  strings.Fields raw = cmd :: more ->
  exists topic,
    parseCommand raw = Returned (cmd, nth 1 (cmd :: more) "", topic)
    /\ (topic <> "" <->
        nth 1 (cmd :: more) "" = "start" /\ 3 <= length (cmd :: more))
    /\ (nth 1 (cmd :: more) "" = "start" -> 3 <= length (cmd :: more) ->
        topic = strings.Join (skipn 2 (cmd :: more)) " ").
Proof.
  intros Hsplit.
  pose proof (Fields_nonempty raw) as Hne. rewrite Hsplit in Hne.
  rewrite (parseCommand_unfold _ _ _ Hsplit).
  eexists; split; [destruct more; reflexivity|].
  destruct more as [|action rest]; cbn [hd tl nth skipn length].
  - split; [split|]; [intros H; now elim H | intros [H _]; discriminate H
                     | intros H; discriminate H].
  - destruct (String.eqb_spec action actionStart) as [Heq|Hneq].
    + split; [split|].
      * intros Htopic. split; [exact Heq|].
        destruct rest; [now elim Htopic | simpl; lia].
      * intros [_ Hlen]. destruct rest as [|t rest']; [simpl in Hlen; lia|].
        apply Join_cons_nonempty.
        inversion Hne as [|? ? _ Hne1]; subst.
        inversion Hne1 as [|? ? _ Hne2]; subst.
        inversion Hne2; assumption.
      * reflexivity.
    + split; [split|].
      * intros H; now elim H.
      * intros [H _]. contradiction.
      * intros H. contradiction.
Qed.

Lemma parseCommand_tokens_witness :
  exists topic,
    parseCommand "/zoom start team sync" = Returned ("/zoom", "start", topic)
    /\ (topic <> "" <-> "start" = "start" /\ 3 <= 4)
    /\ ("start" = "start" -> 3 <= 4 -> topic = "team sync").
Proof.
  exact (parseCommand_tokens "/zoom start team sync" "/zoom"
           ["start"; "team"; "sync"] eq_refl).
Defined.

(** C8, as the code has it. On an input without any token the first index
    expression of [parseCommand] is out of range: the function panics and
    returns no fields. *)
Theorem parseCommand_no_token_panics (raw : string) :
  strings.Fields raw = [] ->
  parseCommand raw = Panicked "index out of range".
Proof.
  intros Hsplit. unfold parseCommand. rewrite Hsplit. reflexivity.
Qed.

Lemma parseCommand_no_token_panics_witness :
  strings.Fields "   " = [] /\ parseCommand "   " = Panicked "index out of range".
Proof.
  split; [reflexivity | apply (parseCommand_no_token_panics "   "); reflexivity].
Defined.

(** C8, as the specification words it, fails on the empty command: there
    are no tokens, and no triple of empty fields is returned. *)
Lemma parseCommand_empty_not_silent :
  strings.Fields "" = []
  /\ parseCommand "" <> Returned ("", "", "").
Proof.
  split; [reflexivity | discriminate].
Qed.

(** ** Running commands *)

Ltac unfold_cmd :=
  unfold runStartCommand, decideMeeting, postAndTrack, deferToOAuth,
    runConnectCommand, storeAndPrompt, canConnect, runPMISettingCommand,
    bind, call, exec, ret, lift, result, world, trace.

Ltac answer H := rewrite H; cbn -[String.eqb Z.eqb].

Lemma eqb_false_of_neq (a b : string) : a <> b -> String.eqb a b = false.
Proof. intros H. now apply String.eqb_neq. Qed.

(** ** The PMI setting *)

(** C9. [runPMISettingCommand] with a value other than "true", "false" and
    "ask" answers "Unknown setting option", with no error, no call at all
    and the world as it was; with "true" it makes one preference write, of
    the value "true" under category "plugin:zoom" and name "use-pmi", and
    when the write succeeds the answer contains "true"; when the write of
    an accepted value fails the answer is the fixed error text, with no
    error. *)
Theorem runPMISettingCommand_validation
  {W : Type} (x : Collaborators W) (user : User) (w : W) :
  (forall v, v <> "true" -> v <> "false" -> v <> "ask" ->
     runPMISettingCommand x v user w
     = (Returned ("Unknown setting option " ++ v, None), w, []))
  /\ (forall ans w',
        UpdatePreferencesForUser x (Id user)
          [ {| PrefUserId := Id user; Category := "plugin:zoom";
               Name := "use-pmi"; Value := "true" |} ] w = (ans, w') ->
        let r := runPMISettingCommand x "true" user w in
        trace r = [EvUpdatePreferencesForUser (Id user)
                     [ {| PrefUserId := Id user; Category := "plugin:zoom";
                          Name := "use-pmi"; Value := "true" |} ]]
        /\ count isPreferenceWrite (trace r) = 1
        /\ world r = w'
        /\ (ans = None ->
            result r = Returned ("Update successfully, use_pmi: true", None)
            /\ strings.Contains "Update successfully, use_pmi: true" "true"
               = true))
  /\ (forall v e w',
        v = "true" \/ v = "false" \/ v = "ask" ->
        UpdatePreferencesForUser x (Id user) [pmiPreference (Id user) v] w
        = (Some e, w') ->
        runPMISettingCommand x v user w
        = (Returned ("Cannot update preference in zoom setting", None), w',
           [EvUpdatePreferencesForUser (Id user) [pmiPreference (Id user) v]])).
Proof.
  split; [|split].
  - intros v Ht Hf Ha. unfold_cmd.
    unfold trueString, falseString, zoomPMISettingValueAsk.
    now rewrite !eqb_false_of_neq by assumption.
  - intros ans w' Hw. unfold_cmd. cbn -[strings.Contains].
    fold zoomPreferenceCategory zoomPMISettingName in Hw |- *.
    change ("plugin:zoom") with zoomPreferenceCategory in Hw.
    change ("use-pmi") with zoomPMISettingName in Hw.
    rewrite Hw. destruct ans as [e|]; cbn -[strings.Contains].
    + repeat split. discriminate.
    + repeat split.
  - intros v e w' Hv Hw. unfold_cmd. unfold pmiPreference in Hw.
    destruct Hv as [-> | [-> | ->]]; cbn in *; now rewrite Hw.
Qed.

Lemma runPMISettingCommand_validation_witness :
  runPMISettingCommand Script.api "foo" Script.alice Script.calm
  = (Returned ("Unknown setting option foo", None), Script.calm, [])
  /\ Script.storedPMI "alice"
       (world (runPMISettingCommand Script.api "true" Script.alice Script.calm))
     = "true"
  /\ (result (runPMISettingCommand Script.api "true" Script.alice Script.calm)
      = Returned ("Update successfully, use_pmi: true", None)
      /\ strings.Contains "Update successfully, use_pmi: true" "true" = true)
  /\ result (runPMISettingCommand Script.api "ask" Script.alice
               (Script.prefsDown Script.calm))
     = Returned ("Cannot update preference in zoom setting", None).
Proof.
  destruct (runPMISettingCommand_validation Script.api Script.alice Script.calm)
    as (Hunknown & Hwrite & _).
  destruct (runPMISettingCommand_validation Script.api Script.alice
              (Script.prefsDown Script.calm)) as (_ & _ & Hfail).
  split; [apply (Hunknown "foo"); discriminate|].
  destruct (Hwrite None
              (Script.withPrefs Script.calm
                 [pmiPreference "alice" "true"]) eq_refl)
    as (_ & _ & Hworld & Hmsg).
  split; [rewrite Hworld; reflexivity|].
  split; [apply Hmsg; reflexivity|].
  rewrite (Hfail "ask" (Script.failure "preferences unavailable")
             (Script.prefsDown Script.calm));
    [reflexivity | right; right; reflexivity | reflexivity].
Defined.

(** ** Traces *)

Lemma count_app (q : Event -> bool) (t1 t2 : list Event) :
  count q (t1 ++ t2) = count q t1 + count q t2.
Proof. unfold count. now rewrite filter_app, length_app. Qed.

Lemma trace_after {W A} (t : list Event) (r : outcome A * W * list Event) :
  trace (after t r) = (t ++ trace r)%list.
Proof. reflexivity. Qed.

Lemma result_after {W A} (t : list Event) (r : outcome A * W * list Event) :
  result (after t r) = result r.
Proof. reflexivity. Qed.

(** ** The start command, phase by phase *)

Section StartPhases.

Context {W : Type} (x : Collaborators W) (k : PackageConstants).
Variables (args : CommandArgs) (user : User).

Local Open Scope cmd_scope.

(** What the post-and-track step does, by cases on its two inputs. *)
Lemma postAndTrack_cases (meetingID : Z) (createMeetingErr : error) (w : W) :
  postAndTrack x k args user meetingID createMeetingErr w =
  match createMeetingErr with
  | Some _ =>
    (Returned ("", Some (errorsNew "error while create new meeting")), w, [])
  | None =>
    if Z.eqb meetingID noMeeting then (Returned ("", None), w, [])
    else
      let post := EvPostMeeting user meetingID (ChannelId args) (RootId args)
                                (defaultMeetingTopic k) in
      match postMeeting x user meetingID (ChannelId args) (RootId args)
                        (defaultMeetingTopic k) w with
      | (Some e, w') => (Returned ("", Some e), w', [post])
      | (None, w') =>
        (Returned ("", None),
         trackMeetingStart x (UserId args) telemetryStartSourceCommand w',
         [post; EvTrackMeetingStart (UserId args) telemetryStartSourceCommand])
      end
  end.
Proof.
  unfold_cmd.
  destruct createMeetingErr as [e|]; destruct (Z.eqb meetingID noMeeting);
    cbn; try reflexivity.
  destruct (postMeeting x user meetingID (ChannelId args) (RootId args)
                        (defaultMeetingTopic k) w) as [[e|] w']; reflexivity.
Qed.

(** The post-and-track step neither creates a meeting nor prompts. *)
Lemma postAndTrack_quiet (meetingID : Z) (createMeetingErr : error) (w : W) :
  count isCreateMeeting
        (trace (postAndTrack x k args user meetingID createMeetingErr w)) = 0
  /\ count isAskPrompt
        (trace (postAndTrack x k args user meetingID createMeetingErr w)) = 0.
Proof.
  rewrite postAndTrack_cases.
  destruct createMeetingErr; [split; reflexivity|].
  destruct (Z.eqb meetingID noMeeting); [split; reflexivity|].
  cbv zeta.
  destruct (postMeeting x user meetingID (ChannelId args) (RootId args)
                        (defaultMeetingTopic k) w) as [[e|] w'];
    split; reflexivity.
Qed.

(** Past the three guards the command is the decision followed by the
    post-and-track step. *)
Lemma runStartCommand_authenticated (topic : string) (w w2 w3 : W)
      (zoomUser : ZoomUser) :
  passesGuards x args user w w2 ->
  authenticateAndFetchZoomUser x user w2 = (inl zoomUser, w3) ->
  runStartCommand x k args user topic w =
  after (startGuardsTrace args user ++ [EvAuthenticateAndFetchZoomUser user])
        (('(meetingID, createMeetingErr) <- decideMeeting x k args user zoomUser ;;
          postAndTrack x k args user meetingID createMeetingErr) w3).
Proof.
  intros (w1 & link & creator & provider & Hmember & Hrecent) Hauth.
  unfold runStartCommand, after, result, world, trace.
  unfold bind at 1. unfold call at 1. answer Hmember.
  unfold bind at 1. unfold call at 1. answer Hrecent.
  unfold bind at 1. unfold call at 1. answer Hauth.
  destruct (bind _ _ w3) as [[r w'] t]. reflexivity.
Qed.

(** Past the first two guards, an unresolved identity leads to the deferral. *)
Lemma runStartCommand_unauthenticated (topic : string) (w w2 w3 : W)
      (authErr : AuthError) :
  passesGuards x args user w w2 ->
  authenticateAndFetchZoomUser x user w2 = (inr authErr, w3) ->
  runStartCommand x k args user topic w =
  after (startGuardsTrace args user ++ [EvAuthenticateAndFetchZoomUser user])
        (deferToOAuth x args user authErr w3).
Proof.
  intros (w1 & link & creator & provider & Hmember & Hrecent) Hauth.
  unfold runStartCommand, after, result, world, trace.
  unfold bind at 1. unfold call at 1. answer Hmember.
  unfold bind at 1. unfold call at 1. answer Hrecent.
  unfold bind at 1. unfold call at 1. answer Hauth.
  destruct (deferToOAuth _ _ _ _ w3) as [[r w'] t]. reflexivity.
Qed.

(** The deferral, by cases on the answer of the store. *)
Lemma deferToOAuth_cases (authErr : AuthError) (w w' : W) (stored : option AppError) :
  storeOAuthUserState x (Id user) (ChannelId args) false w = (stored, w') ->
  deferToOAuth x args user authErr w =
  match stored with
  | Some _ =>
    (Returned (Message authErr, Err authErr),
     LogWarn x "failed to store user state" [] w',
     [EvStoreOAuthUserState (Id user) (ChannelId args) false;
      EvLogWarn "failed to store user state" []])
  | None =>
    (Returned (Message authErr, Err authErr), w',
     [EvStoreOAuthUserState (Id user) (ChannelId args) false])
  end.
Proof.
  intros Hstore. unfold_cmd. rewrite Hstore. destruct stored; reflexivity.
Qed.

(** The decision, by cases on the answer of the preference lookup. *)
Lemma decideMeeting_cases (zoomUser : ZoomUser) (w w' : W)
      (pref : string) (perr : option AppError) :
  getPMISettingData x (Id user) w = ((pref, perr), w') ->
  decideMeeting x k args user zoomUser w =
  after [EvGetPMISettingData (Id user)]
    (if isNil perr && negb (String.eqb pref "" || String.eqb pref "ask") then
       if String.eqb pref "true" then (Returned (Pmi zoomUser, None), w', [])
       else
         (Returned (fst (createMeetingWithoutPMI x user zoomUser (ChannelId args)
                           (defaultMeetingTopic k) w')),
          snd (createMeetingWithoutPMI x user zoomUser (ChannelId args)
                 (defaultMeetingTopic k) w'),
          [EvCreateMeetingWithoutPMI user zoomUser (ChannelId args)
             (defaultMeetingTopic k)])
     else
       (Returned (noMeeting, None),
        askUserPMIMeeting x (Id user) (ChannelId args) w',
        [EvAskUserPMIMeeting (Id user) (ChannelId args)])).
Proof.
  intros Hpref. unfold decideMeeting, after, result, world, trace.
  unfold bind at 1. unfold call at 1. answer Hpref.
  unfold zoomPMISettingValueAsk, trueString.
  destruct perr as [e|]; [reflexivity|].
  cbn -[String.eqb].
  destruct (String.eqb pref "" || String.eqb pref "ask"); [reflexivity|].
  cbn -[String.eqb].
  destruct (String.eqb pref "true"); [reflexivity|].
  unfold call.
  destruct (createMeetingWithoutPMI x user zoomUser (ChannelId args)
              (defaultMeetingTopic k) w') as [[m e] w'']. reflexivity.
Qed.

End StartPhases.

(** ** The meeting-start decision engine *)

Section StartEngine.

Context {W : Type} (x : Collaborators W) (k : PackageConstants).
Variables (args : CommandArgs) (user : User) (topic : string).

(** C3. When the user is a member of the channel and the detector reports a
    recent meeting, [runStartCommand] makes one confirmation post, with the
    link, the creator and the provider of that meeting, creates nothing,
    and returns the empty message and no error.  The world it leaves is the
    one left by that post. *)
Theorem start_reuses_recent_meeting (w w1 w2 : W) (link creator provider : string) :
  GetChannelMember x (ChannelId args) (Id user) w = (None, w1) ->
  checkPreviousMessages x (ChannelId args) w1
  = ((true, link, creator, provider, None), w2) ->
  let r := runStartCommand x k args user topic w in
  result r = Returned ("", None)
  /\ world r = postConfirm x link (ChannelId args) topic (Id user)
                           (RootId args) creator provider w2
  /\ trace r = (startGuardsTrace args user ++
                [EvPostConfirm link (ChannelId args) topic (Id user)
                               (RootId args) creator provider])%list
  /\ count isPostConfirm (trace r) = 1
  /\ count isCreateMeeting (trace r) = 0
  /\ count isPostMeeting (trace r) = 0.
Proof.
  intros Hmember Hrecent. unfold_cmd.
  rewrite Hmember. cbn. rewrite Hrecent. cbn. repeat split.
Qed.

(** C5. When the first two guards pass and the provider identity is not
    resolved, [runStartCommand] stores the pending connection of the user
    in the channel with the flag false, logs a warning if and only if that
    store fails, returns the message and the error of the resolver either
    way, and makes no creation call, no announcement and no telemetry.  The
    world it leaves is the one left by that store, and by the warning when
    there is one. *)
Theorem start_unauthenticated
        (w w2 w3 w4 : W) (authErr : AuthError) (stored : option AppError) :
  passesGuards x args user w w2 ->
  authenticateAndFetchZoomUser x user w2 = (inr authErr, w3) ->
  storeOAuthUserState x (Id user) (ChannelId args) false w3 = (stored, w4) ->
  let r := runStartCommand x k args user topic w in
  result r = Returned (Message authErr, Err authErr)
  /\ world r = match stored with
               | Some _ => LogWarn x "failed to store user state" [] w4
               | None => w4
               end
  /\ trace r = (startGuardsTrace args user ++
                [EvAuthenticateAndFetchZoomUser user;
                 EvStoreOAuthUserState (Id user) (ChannelId args) false] ++
                match stored with
                | Some _ => [EvLogWarn "failed to store user state" []]
                | None => []
                end)%list
  /\ count isCreateMeeting (trace r) = 0
  /\ count isPostMeeting (trace r) = 0
  /\ count isTrackMeetingStart (trace r) = 0.
Proof.
  intros Hguards Hauth Hstore. cbv zeta.
  rewrite (runStartCommand_unauthenticated x k args user topic w w2 w3 authErr
             Hguards Hauth).
  rewrite (deferToOAuth_cases x args user authErr w3 w4 stored Hstore).
  destruct stored; repeat split.
Qed.

(** C1. Past the membership, recent-meeting and auth guards: with the
    stored preference "true" the meeting is the PMI of the identity and no
    creation call is made; with a preference other than the empty one,
    "ask" and "true" there is one creation call, with the default topic,
    whose answer and world are handed to the post-and-track step; with the
    empty preference, "ask", or a failed lookup, no meeting is decided, the
    command returns the empty message and no error, and there is one ask
    prompt, whose world is the one the command leaves, and nothing else
    after the lookup. *)
Theorem start_pmi_branches
        (w w2 w3 w4 : W) (zoomUser : ZoomUser)
        (pref : string) (perr : option AppError) :
  passesGuards x args user w w2 ->
  authenticateAndFetchZoomUser x user w2 = (inl zoomUser, w3) ->
  getPMISettingData x (Id user) w3 = ((pref, perr), w4) ->
  let d := decideMeeting x k args user zoomUser w3 in
  let r := runStartCommand x k args user topic w in
  let lead := (startGuardsTrace args user ++
               [EvAuthenticateAndFetchZoomUser user;
                EvGetPMISettingData (Id user)])%list in
  let create := EvCreateMeetingWithoutPMI user zoomUser (ChannelId args)
                                          (defaultMeetingTopic k) in
  let ask := EvAskUserPMIMeeting (Id user) (ChannelId args) in
  (perr = None -> pref = "true" ->
     d = (Returned (Pmi zoomUser, None), w4, [EvGetPMISettingData (Id user)])
     /\ r = after lead (postAndTrack x k args user (Pmi zoomUser) None w4)
     /\ count isCreateMeeting (trace r) = 0)
  /\ (perr = None -> pref <> "" -> pref <> "ask" -> pref <> "true" ->
      filter isCreateMeeting (trace r) = [create]
      /\ count isCreateMeeting (trace r) = 1
      /\ forall meetingID createMeetingErr w5,
          createMeetingWithoutPMI x user zoomUser (ChannelId args)
                                  (defaultMeetingTopic k) w4
          = ((meetingID, createMeetingErr), w5) ->
          d = (Returned (meetingID, createMeetingErr), w5,
               [EvGetPMISettingData (Id user); create])
          /\ r = after (lead ++ [create])
                       (postAndTrack x k args user meetingID createMeetingErr w5))
  /\ (perr <> None \/ pref = "" \/ pref = "ask" ->
      d = (Returned (noMeeting, None),
           askUserPMIMeeting x (Id user) (ChannelId args) w4,
           [EvGetPMISettingData (Id user); ask])
      /\ r = (Returned ("", None),
              askUserPMIMeeting x (Id user) (ChannelId args) w4,
              (lead ++ [ask])%list)
      /\ count isAskPrompt (trace r) = 1
      /\ count isCreateMeeting (trace r) = 0).
Proof.
  intros Hguards Hauth Hpref. cbv zeta.
  rewrite (runStartCommand_authenticated x k args user topic w w2 w3 zoomUser
             Hguards Hauth).
  unfold bind.
  rewrite (decideMeeting_cases x k args user zoomUser w3 w4 pref perr Hpref).
  split; [|split].
  - intros -> ->. cbn -[postAndTrack].
    pose proof (postAndTrack_quiet x k args user (Pmi zoomUser) None w4) as [Hc _].
    destruct (postAndTrack x k args user (Pmi zoomUser) None w4) as [[b w5] t].
    repeat split. unfold trace in *. cbn in *. exact Hc.
  - intros -> He Ha Ht.
    rewrite (eqb_false_of_neq _ _ He), (eqb_false_of_neq _ _ Ha),
      (eqb_false_of_neq _ _ Ht).
    cbn -[postAndTrack].
    destruct (createMeetingWithoutPMI x user zoomUser (ChannelId args)
                (defaultMeetingTopic k) w4) as [[m e] w5'].
    cbn -[postAndTrack].
    pose proof (postAndTrack_quiet x k args user m e w5') as [Hc _].
    destruct (postAndTrack x k args user m e w5') as [[b w6] t] eqn:Hpost.
    unfold trace, count in *. cbn in *.
    apply length_zero_iff_nil in Hc. rewrite Hc.
    split; [reflexivity|]. split; [reflexivity|].
    intros meetingID createMeetingErr w5 Hcreate.
    injection Hcreate as <- <- <-. rewrite Hpost. split; reflexivity.
  - intros Hask.
    assert (isNil perr && negb (String.eqb pref "" || String.eqb pref "ask")
            = false) as ->.
    { destruct Hask as [Hp | [-> | ->]].
      - destruct perr; [reflexivity | congruence].
      - destruct perr; reflexivity.
      - destruct perr; reflexivity. }
    cbn. repeat split.
Qed.

End StartEngine.

(** ** The post-and-track step *)

Section PostAndTrack.

Context {W : Type} (x : Collaborators W) (k : PackageConstants).
Variables (args : CommandArgs) (user : User).

(** C2, as the code has it. With the sentinel and no creation error the
    step returns the empty message and no error, without any call.  It
    returns the generic creation error without any call exactly when a
    creation error occurred, whatever the meeting identifier is.  With a
    decided meeting and no creation error it posts the announcement; when
    the post succeeds it emits the start event tagged "command" and returns
    no error, and when the post fails it returns that failure and emits
    nothing. *)
Theorem postAndTrack_outcomes (meetingID : Z) (createMeetingErr : error) (w : W) :
  let r := postAndTrack x k args user meetingID createMeetingErr w in
  let post := EvPostMeeting user meetingID (ChannelId args) (RootId args)
                            (defaultMeetingTopic k) in
  (meetingID = noMeeting -> createMeetingErr = None ->
     r = (Returned ("", None), w, []))
  /\ (createMeetingErr <> None <->
      r = (Returned ("", Some (errorsNew "error while create new meeting")),
           w, []))
  /\ (meetingID <> noMeeting -> createMeetingErr = None ->
      forall posted w',
        postMeeting x user meetingID (ChannelId args) (RootId args)
                    (defaultMeetingTopic k) w = (posted, w') ->
        match posted with
        | None =>
          r = (Returned ("", None),
               trackMeetingStart x (UserId args) "command" w',
               [post; EvTrackMeetingStart (UserId args) "command"])
        | Some e => r = (Returned ("", Some e), w', [post])
        end).
Proof.
  cbv zeta. rewrite postAndTrack_cases. split; [|split].
  - intros -> ->. reflexivity.
  - split.
    + destruct createMeetingErr; [reflexivity | congruence].
    + destruct createMeetingErr; [discriminate|].
      destruct (Z.eqb meetingID noMeeting); [discriminate|]. cbv zeta.
      destruct (postMeeting x user meetingID (ChannelId args) (RootId args)
                            (defaultMeetingTopic k) w) as [[e|] w'];
        discriminate.
  - intros Hid -> posted w' Hpost.
    apply Z.eqb_neq in Hid. rewrite Hid. cbv zeta. rewrite Hpost.
    destruct posted; reflexivity.
Qed.

End PostAndTrack.

Lemma postAndTrack_outcomes_witness :
  postAndTrack Script.api Script.consts (Script.inChannel "alice" "/zoom start")
               Script.alice noMeeting None Script.calm
  = (Returned ("", None), Script.calm, [])
  /\ postAndTrack Script.api Script.consts (Script.inChannel "alice" "/zoom start")
                  Script.alice 7001 None Script.calm
     = (Returned ("", None), Script.calm,
        [EvPostMeeting Script.alice 7001 "town-square" "" "Zoom Meeting";
         EvTrackMeetingStart "alice" "command"]).
Proof.
  destruct (postAndTrack_outcomes Script.api Script.consts
              (Script.inChannel "alice" "/zoom start") Script.alice
              noMeeting None Script.calm) as (Hsilent & _ & _).
  destruct (postAndTrack_outcomes Script.api Script.consts
              (Script.inChannel "alice" "/zoom start") Script.alice
              7001 None Script.calm) as (_ & _ & Hpost).
  split.
  - apply Hsilent; reflexivity.
  - apply (Hpost ltac:(discriminate) eq_refl None Script.calm eq_refl).
Defined.

(** C2, as the specification words it, fails when the creation call hands
    back a meeting identifier together with an error: the identifier is not
    the sentinel, yet the step returns the creation error and posts
    nothing. *)
Lemma postAndTrack_error_beside_meeting :
  let r := postAndTrack Script.api Script.consts
             (Script.inChannel "alice" "/zoom start") Script.alice
             7001 (Some (errorsNew "provider timeout")) Script.calm in
  7001%Z <> noMeeting
  /\ result r = Returned ("", Some (errorsNew "error while create new meeting"))
  /\ count isPostMeeting (trace r) = 0
  /\ count isTrackMeetingStart (trace r) = 0.
Proof.
  cbv zeta. repeat split. discriminate.
Qed.

(** ** End to end: "/zoom start team sync" *)

Section EndToEnd.

Context {W : Type} (x : Collaborators W) (k : PackageConstants) (p : Plugin).

(** The dispatcher hands a "start" command to [runStartCommand]. *)
Lemma executeCommand_start (args : CommandArgs) (user : User)
      (cmdTopic : string) (w0 w : W) :
  parseCommand (Command args) = Returned ("/zoom", "start", cmdTopic) ->
  GetUser x (UserId args) w0 = (inl user, w) ->
  executeCommand x k p args w0
  = after [EvGetUser (UserId args)] (runStartCommand x k args user cmdTopic w).
Proof.
  intros Hparse Huser. unfold executeCommand.
  unfold bind at 1. unfold lift at 1. rewrite Hparse. cbn -[runStartCommand].
  unfold bind at 1. unfold call at 1. rewrite Huser.
  unfold after, result, world, trace.
  destruct (runStartCommand x k args user cmdTopic w) as [[r w'] t].
  reflexivity.
Qed.

(** C4. The command "/zoom start team sync" of a connected user whose
    preference is "false", with nothing recent in the channel and every
    collaborator succeeding (the creation call answering a meeting
    identifier, which is not the sentinel, and no error): one creation
    call, with the default topic and not with "team sync"; one announcement
    post; one start event tagged "command"; the empty message and no error
    returned.  The world left is the one left by the start event, emitted
    on the world left by the announcement. *)
Theorem start_team_sync
        (args : CommandArgs) (user : User) (zoomUser : ZoomUser)
        (meetingID : Z) (w0 w w2 w3 w4 w5 w6 : W) :
  Command args = "/zoom start team sync" ->
  GetUser x (UserId args) w0 = (inl user, w) ->
  passesGuards x args user w w2 ->
  authenticateAndFetchZoomUser x user w2 = (inl zoomUser, w3) ->
  getPMISettingData x (Id user) w3 = (("false", None), w4) ->
  createMeetingWithoutPMI x user zoomUser (ChannelId args)
                          (defaultMeetingTopic k) w4 = ((meetingID, None), w5) ->
  meetingID <> noMeeting ->
  postMeeting x user meetingID (ChannelId args) (RootId args)
              (defaultMeetingTopic k) w5 = (None, w6) ->
  let r := runStartCommand x k args user "team sync" w in
  executeCommand x k p args w0 = after [EvGetUser (UserId args)] r
  /\ result r = Returned ("", None)
  /\ world r = trackMeetingStart x (UserId args) "command" w6
  /\ trace r = (startGuardsTrace args user ++
                [EvAuthenticateAndFetchZoomUser user;
                 EvGetPMISettingData (Id user);
                 EvCreateMeetingWithoutPMI user zoomUser (ChannelId args)
                                           (defaultMeetingTopic k);
                 EvPostMeeting user meetingID (ChannelId args) (RootId args)
                               (defaultMeetingTopic k);
                 EvTrackMeetingStart (UserId args) "command"])%list
  /\ count isCreateMeeting (trace r) = 1
  /\ count isPostMeeting (trace r) = 1
  /\ count isTrackMeetingStart (trace r) = 1
  /\ (defaultMeetingTopic k <> "team sync" ->
      ~ In (EvCreateMeetingWithoutPMI user zoomUser (ChannelId args) "team sync")
           (trace r)).
Proof.
  intros Hcmd Huser Hguards Hauth Hpref Hcreate Hid Hpost. cbv zeta.
  split.
  { apply executeCommand_start; [rewrite Hcmd; reflexivity | exact Huser]. }
  rewrite (runStartCommand_authenticated x k args user "team sync" w w2 w3
             zoomUser Hguards Hauth).
  unfold bind.
  rewrite (decideMeeting_cases x k args user zoomUser w3 w4 "false" None Hpref).
  cbn -[postAndTrack]. rewrite Hcreate. cbn -[postAndTrack].
  rewrite postAndTrack_cases. apply Z.eqb_neq in Hid. rewrite Hid.
  cbv zeta. rewrite Hpost. cbn.
  repeat split.
  intros Htopic Hin.
  repeat (destruct Hin as [Hin | Hin]; [try discriminate Hin|]);
    [injection Hin; auto | exact Hin].
Qed.

End EndToEnd.

(** ** Pending connections *)

Section PendingConnections.

Context {W : Type} (x : Collaborators W) (k : PackageConstants) (p : Plugin).
Variables (user : User) (args : CommandArgs).

(** On either path of [runConnectCommand] that finds nothing connected, the
    command is the store of the pending connection followed by its
    answer. *)
Lemma runConnectCommand_stores (w w2 : W) (site : string) :
  connectNeedsState x k p user w site w2 ->
  runConnectCommand x k p user args w
  = after (connectTrace k p user)
          (storeAndPrompt x user args (OAuthPrompt k site) w2).
Proof.
  intros (Hcan & w1 & Hsite & Hpath).
  unfold runConnectCommand, connectTrace, after, result, world, trace.
  unfold bind at 1. unfold canConnect at 1. rewrite Hcan. cbn -[storeAndPrompt].
  unfold bind at 1. unfold call at 1. rewrite Hsite. cbn -[storeAndPrompt].
  destruct (AccountLevelApp (configuration p)).
  - destruct Hpath as (token & err & Htoken & Hnone).
    unfold bind at 1. unfold call at 1. rewrite Htoken. cbn -[storeAndPrompt].
    rewrite Hnone.
    destruct (storeAndPrompt x user args (OAuthPrompt k site) w2) as [[r w'] t].
    reflexivity.
  - destruct Hpath as (e & Hlinked).
    unfold bind at 1. unfold call at 1. rewrite Hlinked. cbn -[storeAndPrompt].
    destruct (storeAndPrompt x user args (OAuthPrompt k site) w2) as [[r w'] t].
    reflexivity.
Qed.

Lemma storeAndPrompt_cases (oauthMsg : string) (w w' : W) (stored : option AppError) :
  storeOAuthUserState x (Id user) (ChannelId args) true w = (stored, w') ->
  storeAndPrompt x user args oauthMsg w =
  (Returned (match stored with
             | Some e => ("", Some (errorsWrap (ofAppError e) "cannot store state"))
             | None => (oauthMsg, None)
             end), w',
   [EvStoreOAuthUserState (Id user) (ChannelId args) true]).
Proof.
  intros Hstore. unfold_cmd. rewrite Hstore. destruct stored; reflexivity.
Qed.

(** C6, as the code has it. In the auth guard of [runStartCommand] a failed
    store of the pending connection is logged and the command returns the
    message and the error of the resolver, as it does when the store
    succeeds.  On both paths of [runConnectCommand] a failed store is not
    logged: the command returns the empty message and the failure wrapped
    as "cannot store state", and the OAuth prompt only when the store
    succeeds. *)
Theorem pending_store_failure_policy :
  (forall topic w w2 w3 w4 authErr stored,
      passesGuards x args user w w2 ->
      authenticateAndFetchZoomUser x user w2 = (inr authErr, w3) ->
      storeOAuthUserState x (Id user) (ChannelId args) false w3 = (stored, w4) ->
      let r := runStartCommand x k args user topic w in
      result r = Returned (Message authErr, Err authErr)
      /\ count isLogWarn (trace r) = if isNil stored then 0 else 1)
  /\ (forall w w2 w3 site stored,
      connectNeedsState x k p user w site w2 ->
      storeOAuthUserState x (Id user) (ChannelId args) true w2 = (stored, w3) ->
      let r := runConnectCommand x k p user args w in
      result r
      = Returned (match stored with
                  | Some e =>
                    ("", Some (errorsWrap (ofAppError e) "cannot store state"))
                  | None => (OAuthPrompt k site, None)
                  end)
      /\ count isLogWarn (trace r) = 0).
Proof.
  split.
  - intros topic w w2 w3 w4 authErr stored Hguards Hauth Hstore. cbv zeta.
    rewrite (runStartCommand_unauthenticated x k args user topic w w2 w3 authErr
               Hguards Hauth).
    rewrite (deferToOAuth_cases x args user authErr w3 w4 stored Hstore).
    destruct stored; split; reflexivity.
  - intros w w2 w3 site stored Hneeds Hstore. cbv zeta.
    rewrite (runConnectCommand_stores w w2 site Hneeds).
    rewrite (storeAndPrompt_cases (OAuthPrompt k site) w2 w3 stored Hstore).
    unfold connectTrace.
    destruct (AccountLevelApp (configuration p)); split; reflexivity.
Qed.

(** C10. [runConnectCommand] stores the pending connection with the flag
    true on its account-level path and on its user-level path alike;
    the auth guard of [runStartCommand] stores it with the flag false.  In
    each case this is the only store of the run, and the world the command
    leaves is the one left by that store (then by the warning, when the
    store of the auth guard fails). *)
Theorem pending_flag_by_command :
  (forall w w2 site,
      connectNeedsState x k p user w site w2 ->
      filter isStoreState (trace (runConnectCommand x k p user args w))
      = [EvStoreOAuthUserState (Id user) (ChannelId args) true]
      /\ world (runConnectCommand x k p user args w)
         = snd (storeOAuthUserState x (Id user) (ChannelId args) true w2))
  /\ (forall topic w w2 w3 authErr,
      passesGuards x args user w w2 ->
      authenticateAndFetchZoomUser x user w2 = (inr authErr, w3) ->
      filter isStoreState (trace (runStartCommand x k args user topic w))
      = [EvStoreOAuthUserState (Id user) (ChannelId args) false]
      /\ world (runStartCommand x k args user topic w)
         = match storeOAuthUserState x (Id user) (ChannelId args) false w3 with
           | (Some _, w4) => LogWarn x "failed to store user state" [] w4
           | (None, w4) => w4
           end).
Proof.
  split.
  - intros w w2 site Hneeds.
    rewrite (runConnectCommand_stores w w2 site Hneeds).
    destruct (storeOAuthUserState x (Id user) (ChannelId args) true w2)
      as [stored w3] eqn:Hstore.
    rewrite (storeAndPrompt_cases (OAuthPrompt k site) w2 w3 stored Hstore).
    unfold connectTrace.
    destruct (AccountLevelApp (configuration p)); split; reflexivity.
  - intros topic w w2 w3 authErr Hguards Hauth.
    rewrite (runStartCommand_unauthenticated x k args user topic w w2 w3 authErr
               Hguards Hauth).
    destruct (storeOAuthUserState x (Id user) (ChannelId args) false w3)
      as [stored w4] eqn:Hstore.
    rewrite (deferToOAuth_cases x args user authErr w3 w4 stored Hstore).
    destruct stored; split; reflexivity.
Qed.

End PendingConnections.

(** ** The statements at work in the scripted world *)

Lemma start_reuses_recent_meeting_witness :
  let args := Script.inChannel "alice" "/zoom start standup" in
  let confirm := EvPostConfirm "https://zoom.us/j/42" "town-square" "standup"
                               "alice" "" "bob" "Zoom" in
  let r := runStartCommand Journal.api Script.consts args Script.alice
             "standup" (Journal.fresh (Script.withRecent Script.calm)) in
  result r = Returned ("", None)
  /\ world r = (Script.withRecent Script.calm,
                [EvGetChannelMember "town-square" "alice";
                 EvCheckPreviousMessages "town-square"; confirm])
  /\ trace r = [EvGetChannelMember "town-square" "alice";
                EvCheckPreviousMessages "town-square"; confirm]
  /\ count isPostConfirm (trace r) = 1
  /\ count isCreateMeeting (trace r) = 0
  /\ count isPostMeeting (trace r) = 0.
Proof.
  exact (start_reuses_recent_meeting Journal.api Script.consts
           (Script.inChannel "alice" "/zoom start standup") Script.alice
           "standup" (Journal.fresh (Script.withRecent Script.calm))
           (Script.withRecent Script.calm,
            [EvGetChannelMember "town-square" "alice"])
           (Script.withRecent Script.calm,
            [EvGetChannelMember "town-square" "alice";
             EvCheckPreviousMessages "town-square"])
           "https://zoom.us/j/42" "bob" "Zoom" eq_refl eq_refl).
Defined.

Lemma start_unauthenticated_witness :
  let args := Script.inChannel "alice" "/zoom start" in
  let lead := [EvGetChannelMember "town-square" "alice";
               EvCheckPreviousMessages "town-square";
               EvAuthenticateAndFetchZoomUser Script.alice;
               EvStoreOAuthUserState "alice" "town-square" false] in
  let up := Script.disconnected Script.calm in
  let down := Script.storeDown (Script.disconnected Script.calm) in
  let r := runStartCommand Journal.api Script.consts args Script.alice ""
                           (Journal.fresh up) in
  let r' := runStartCommand Journal.api Script.consts args Script.alice ""
                            (Journal.fresh down) in
  (result r
   = Returned ("You must connect to Zoom first", Some (errorsNew "no token"))
   /\ Script.pending (fst (world r)) = [("alice", "town-square", false)]
   /\ Journal.journal (world r) = lead
   /\ trace r = lead)
  /\ (result r'
      = Returned ("You must connect to Zoom first", Some (errorsNew "no token"))
      /\ Script.pending (fst (world r')) = []
      /\ Script.warnings (fst (world r')) = ["failed to store user state"]
      /\ trace r' = (lead ++ [EvLogWarn "failed to store user state" []])%list
      /\ count isCreateMeeting (trace r') = 0
      /\ count isPostMeeting (trace r') = 0
      /\ count isTrackMeetingStart (trace r') = 0).
Proof.
  cbv zeta. split.
  - assert (passesGuards Journal.api (Script.inChannel "alice" "/zoom start")
              Script.alice (Journal.fresh (Script.disconnected Script.calm))
              (Script.disconnected Script.calm,
               [EvGetChannelMember "town-square" "alice";
                EvCheckPreviousMessages "town-square"])) as Hguards.
    { do 4 eexists; split; reflexivity. }
    destruct (start_unauthenticated Journal.api Script.consts
                (Script.inChannel "alice" "/zoom start") Script.alice ""
                (Journal.fresh (Script.disconnected Script.calm))
                (Script.disconnected Script.calm,
                 [EvGetChannelMember "town-square" "alice";
                  EvCheckPreviousMessages "town-square"])
                (Script.disconnected Script.calm,
                 [EvGetChannelMember "town-square" "alice";
                  EvCheckPreviousMessages "town-square";
                  EvAuthenticateAndFetchZoomUser Script.alice])
                (Script.withPending (Script.disconnected Script.calm)
                   [("alice", "town-square", false)],
                 [EvGetChannelMember "town-square" "alice";
                  EvCheckPreviousMessages "town-square";
                  EvAuthenticateAndFetchZoomUser Script.alice;
                  EvStoreOAuthUserState "alice" "town-square" false])
                {| Message := "You must connect to Zoom first";
                   Err := Some (errorsNew "no token") |}
                None Hguards eq_refl eq_refl)
      as (Hres & Hworld & Htrace & _).
    split; [exact Hres|]. rewrite Hworld. split; [reflexivity|].
    split; [reflexivity | exact Htrace].
  - assert (passesGuards Journal.api (Script.inChannel "alice" "/zoom start")
              Script.alice
              (Journal.fresh (Script.storeDown (Script.disconnected Script.calm)))
              (Script.storeDown (Script.disconnected Script.calm),
               [EvGetChannelMember "town-square" "alice";
                EvCheckPreviousMessages "town-square"])) as Hguards.
    { do 4 eexists; split; reflexivity. }
    destruct (start_unauthenticated Journal.api Script.consts
                (Script.inChannel "alice" "/zoom start") Script.alice ""
                (Journal.fresh (Script.storeDown (Script.disconnected Script.calm)))
                (Script.storeDown (Script.disconnected Script.calm),
                 [EvGetChannelMember "town-square" "alice";
                  EvCheckPreviousMessages "town-square"])
                (Script.storeDown (Script.disconnected Script.calm),
                 [EvGetChannelMember "town-square" "alice";
                  EvCheckPreviousMessages "town-square";
                  EvAuthenticateAndFetchZoomUser Script.alice])
                (Script.storeDown (Script.disconnected Script.calm),
                 [EvGetChannelMember "town-square" "alice";
                  EvCheckPreviousMessages "town-square";
                  EvAuthenticateAndFetchZoomUser Script.alice;
                  EvStoreOAuthUserState "alice" "town-square" false])
                {| Message := "You must connect to Zoom first";
                   Err := Some (errorsNew "no token") |}
                (Some (Script.failure "kv store down"))
                Hguards eq_refl eq_refl)
      as (Hres & Hworld & Htrace & Hc & Hp & Ht).
    split; [exact Hres|]. rewrite Hworld.
    split; [reflexivity|]. split; [reflexivity|].
    split; [exact Htrace|]. split; [exact Hc|]. split; [exact Hp | exact Ht].
Defined.

Lemma start_pmi_branches_witness :
  let args := Script.inChannel "alice" "/zoom start" in
  let run s := runStartCommand Journal.api Script.consts args Script.alice ""
                               (Journal.fresh s) in
  let lead := [EvGetChannelMember "town-square" "alice";
               EvCheckPreviousMessages "town-square";
               EvAuthenticateAndFetchZoomUser Script.alice;
               EvGetPMISettingData "alice"] in
  let create := EvCreateMeetingWithoutPMI Script.alice Script.zoomAlice
                                          "town-square" "Zoom Meeting" in
  let ask := EvAskUserPMIMeeting "alice" "town-square" in
  (Journal.journal (world (run (Script.prefers "true" Script.calm)))
   = (lead ++ [EvPostMeeting Script.alice 5550100 "town-square" "" "Zoom Meeting";
               EvTrackMeetingStart "alice" "command"])%list
   /\ count isCreateMeeting (trace (run (Script.prefers "true" Script.calm))) = 0)
  /\ (Journal.journal (world (run (Script.prefers "false" Script.calm)))
      = (lead ++ [create;
                  EvPostMeeting Script.alice 7001 "town-square" "" "Zoom Meeting";
                  EvTrackMeetingStart "alice" "command"])%list
      /\ filter isCreateMeeting (trace (run (Script.prefers "false" Script.calm)))
         = [create])
  /\ run Script.calm
     = (Returned ("", None), (Script.calm, (lead ++ [ask])%list),
        (lead ++ [ask])%list)
  /\ run (Script.prefsDown Script.calm)
     = (Returned ("", None),
        (Script.prefsDown Script.calm, (lead ++ [ask])%list),
        (lead ++ [ask])%list).
Proof.
  cbv zeta.
  assert (forall s, Script.memberErr s = None ->
                    Script.recent s = (false, "", "", "", None) ->
                    passesGuards Journal.api
                      (Script.inChannel "alice" "/zoom start") Script.alice
                      (Journal.fresh s)
                      (s, [EvGetChannelMember "town-square" "alice";
                           EvCheckPreviousMessages "town-square"]))
    as Hguards.
  { intros s Hm Hr.
    exists (s, [EvGetChannelMember "town-square" "alice"]), "", "", "".
    unfold Journal.fresh. cbn. rewrite Hm. cbn. rewrite Hr. split; reflexivity. }
  assert ("false" <> "") as He by discriminate.
  assert ("false" <> "ask") as Ha by discriminate.
  assert ("false" <> "true") as Ht by discriminate.
  split; [|split; [|split]].
  - destruct (start_pmi_branches Journal.api Script.consts
                (Script.inChannel "alice" "/zoom start") Script.alice ""
                (Journal.fresh (Script.prefers "true" Script.calm))
                (Script.prefers "true" Script.calm,
                 [EvGetChannelMember "town-square" "alice";
                  EvCheckPreviousMessages "town-square"])
                (Script.prefers "true" Script.calm,
                 [EvGetChannelMember "town-square" "alice";
                  EvCheckPreviousMessages "town-square";
                  EvAuthenticateAndFetchZoomUser Script.alice])
                (Script.prefers "true" Script.calm,
                 [EvGetChannelMember "town-square" "alice";
                  EvCheckPreviousMessages "town-square";
                  EvAuthenticateAndFetchZoomUser Script.alice;
                  EvGetPMISettingData "alice"])
                Script.zoomAlice "true" None
                (Hguards (Script.prefers "true" Script.calm) eq_refl eq_refl)
                eq_refl eq_refl)
      as (Htrue & _ & _).
    destruct (Htrue eq_refl eq_refl) as (_ & Hr & Hc).
    split; [rewrite Hr; reflexivity | exact Hc].
  - destruct (start_pmi_branches Journal.api Script.consts
                (Script.inChannel "alice" "/zoom start") Script.alice ""
                (Journal.fresh (Script.prefers "false" Script.calm))
                (Script.prefers "false" Script.calm,
                 [EvGetChannelMember "town-square" "alice";
                  EvCheckPreviousMessages "town-square"])
                (Script.prefers "false" Script.calm,
                 [EvGetChannelMember "town-square" "alice";
                  EvCheckPreviousMessages "town-square";
                  EvAuthenticateAndFetchZoomUser Script.alice])
                (Script.prefers "false" Script.calm,
                 [EvGetChannelMember "town-square" "alice";
                  EvCheckPreviousMessages "town-square";
                  EvAuthenticateAndFetchZoomUser Script.alice;
                  EvGetPMISettingData "alice"])
                Script.zoomAlice "false" None
                (Hguards (Script.prefers "false" Script.calm) eq_refl eq_refl)
                eq_refl eq_refl)
      as (_ & Hother & _).
    destruct (Hother eq_refl He Ha Ht) as (Hfilter & _ & Hrun).
    destruct (Hrun 7001%Z None
                (Script.prefers "false" Script.calm,
                 [EvGetChannelMember "town-square" "alice";
                  EvCheckPreviousMessages "town-square";
                  EvAuthenticateAndFetchZoomUser Script.alice;
                  EvGetPMISettingData "alice";
                  EvCreateMeetingWithoutPMI Script.alice Script.zoomAlice
                                            "town-square" "Zoom Meeting"])
                eq_refl) as (_ & Hr).
    split; [rewrite Hr; reflexivity | exact Hfilter].
  - destruct (start_pmi_branches Journal.api Script.consts
                (Script.inChannel "alice" "/zoom start") Script.alice ""
                (Journal.fresh Script.calm)
                (Script.calm,
                 [EvGetChannelMember "town-square" "alice";
                  EvCheckPreviousMessages "town-square"])
                (Script.calm,
                 [EvGetChannelMember "town-square" "alice";
                  EvCheckPreviousMessages "town-square";
                  EvAuthenticateAndFetchZoomUser Script.alice])
                (Script.calm,
                 [EvGetChannelMember "town-square" "alice";
                  EvCheckPreviousMessages "town-square";
                  EvAuthenticateAndFetchZoomUser Script.alice;
                  EvGetPMISettingData "alice"])
                Script.zoomAlice "" None
                (Hguards Script.calm eq_refl eq_refl) eq_refl eq_refl)
      as (_ & _ & Hask).
    destruct (Hask (or_intror (or_introl eq_refl))) as (_ & Hr & _).
    exact Hr.
  - destruct (start_pmi_branches Journal.api Script.consts
                (Script.inChannel "alice" "/zoom start") Script.alice ""
                (Journal.fresh (Script.prefsDown Script.calm))
                (Script.prefsDown Script.calm,
                 [EvGetChannelMember "town-square" "alice";
                  EvCheckPreviousMessages "town-square"])
                (Script.prefsDown Script.calm,
                 [EvGetChannelMember "town-square" "alice";
                  EvCheckPreviousMessages "town-square";
                  EvAuthenticateAndFetchZoomUser Script.alice])
                (Script.prefsDown Script.calm,
                 [EvGetChannelMember "town-square" "alice";
                  EvCheckPreviousMessages "town-square";
                  EvAuthenticateAndFetchZoomUser Script.alice;
                  EvGetPMISettingData "alice"])
                Script.zoomAlice ""
                (Some (Script.failure "preferences unavailable"))
                (Hguards (Script.prefsDown Script.calm) eq_refl eq_refl)
                eq_refl eq_refl)
      as (_ & _ & Hask).
    assert (Some (Script.failure "preferences unavailable") <> None) as Hdown
        by discriminate.
    destruct (Hask (or_introl Hdown)) as (_ & Hr & _).
    exact Hr.
Defined.

Lemma start_team_sync_witness :
  let args := Script.inChannel "alice" "/zoom start team sync" in
  let s := Script.prefers "false" Script.calm in
  let calls := [EvGetChannelMember "town-square" "alice";
                EvCheckPreviousMessages "town-square";
                EvAuthenticateAndFetchZoomUser Script.alice;
                EvGetPMISettingData "alice";
                EvCreateMeetingWithoutPMI Script.alice Script.zoomAlice
                                          "town-square" "Zoom Meeting";
                EvPostMeeting Script.alice 7001 "town-square" "" "Zoom Meeting";
                EvTrackMeetingStart "alice" "command"] in
  let r := runStartCommand Journal.api Script.consts args Script.alice
                           "team sync" (s, [EvGetUser "alice"]) in
  executeCommand Journal.api Script.consts Script.userLevel args (Journal.fresh s)
  = after [EvGetUser "alice"] r
  /\ result r = Returned ("", None)
  /\ world r = (s, EvGetUser "alice" :: calls)
  /\ trace r = calls
  /\ count isCreateMeeting (trace r) = 1
  /\ count isPostMeeting (trace r) = 1
  /\ count isTrackMeetingStart (trace r) = 1
  /\ ~ In (EvCreateMeetingWithoutPMI Script.alice Script.zoomAlice
                                     "town-square" "team sync") (trace r).
Proof.
  cbv zeta.
  assert (passesGuards Journal.api
            (Script.inChannel "alice" "/zoom start team sync") Script.alice
            (Script.prefers "false" Script.calm, [EvGetUser "alice"])
            (Script.prefers "false" Script.calm,
             [EvGetUser "alice";
              EvGetChannelMember "town-square" "alice";
              EvCheckPreviousMessages "town-square"])) as Hguards.
  { exists (Script.prefers "false" Script.calm,
            [EvGetUser "alice"; EvGetChannelMember "town-square" "alice"]),
           "", "", "".
    split; reflexivity. }
  assert (7001%Z <> noMeeting) as Hid by discriminate.
  destruct (start_team_sync Journal.api Script.consts Script.userLevel
              (Script.inChannel "alice" "/zoom start team sync") Script.alice
              Script.zoomAlice 7001
              (Journal.fresh (Script.prefers "false" Script.calm))
              (Script.prefers "false" Script.calm, [EvGetUser "alice"])
              (Script.prefers "false" Script.calm,
               [EvGetUser "alice";
                EvGetChannelMember "town-square" "alice";
                EvCheckPreviousMessages "town-square"])
              (Script.prefers "false" Script.calm,
               [EvGetUser "alice";
                EvGetChannelMember "town-square" "alice";
                EvCheckPreviousMessages "town-square";
                EvAuthenticateAndFetchZoomUser Script.alice])
              (Script.prefers "false" Script.calm,
               [EvGetUser "alice";
                EvGetChannelMember "town-square" "alice";
                EvCheckPreviousMessages "town-square";
                EvAuthenticateAndFetchZoomUser Script.alice;
                EvGetPMISettingData "alice"])
              (Script.prefers "false" Script.calm,
               [EvGetUser "alice";
                EvGetChannelMember "town-square" "alice";
                EvCheckPreviousMessages "town-square";
                EvAuthenticateAndFetchZoomUser Script.alice;
                EvGetPMISettingData "alice";
                EvCreateMeetingWithoutPMI Script.alice Script.zoomAlice
                                          "town-square" "Zoom Meeting"])
              (Script.prefers "false" Script.calm,
               [EvGetUser "alice";
                EvGetChannelMember "town-square" "alice";
                EvCheckPreviousMessages "town-square";
                EvAuthenticateAndFetchZoomUser Script.alice;
                EvGetPMISettingData "alice";
                EvCreateMeetingWithoutPMI Script.alice Script.zoomAlice
                                          "town-square" "Zoom Meeting";
                EvPostMeeting Script.alice 7001 "town-square" ""
                              "Zoom Meeting"])
              eq_refl eq_refl Hguards eq_refl eq_refl eq_refl
              Hid eq_refl)
    as (Hexec & Hres & Hworld & Htrace & Hc & Hp & Ht & Hnot).
  split; [exact Hexec|]. split; [exact Hres|].
  split; [rewrite Hworld; reflexivity|].
  split; [exact Htrace|]. split; [exact Hc|]. split; [exact Hp|].
  split; [exact Ht|]. apply Hnot. discriminate.
Defined.

Lemma pending_store_failure_policy_witness :
  let start := Script.inChannel "alice" "/zoom start" in
  let connect := Script.inChannel "alice" "/zoom connect" in
  let down := Script.storeDown (Script.disconnected Script.calm) in
  (result (runStartCommand Script.api Script.consts start Script.alice "" down)
   = Returned ("You must connect to Zoom first", Some (errorsNew "no token"))
   /\ count isLogWarn
        (trace (runStartCommand Script.api Script.consts start Script.alice "" down))
      = 1)
  /\ (result (runConnectCommand Script.api Script.consts Script.userLevel
                Script.alice connect (Script.storeDown Script.calm))
      = Returned ("", Some (errorsWrap (ofAppError (Script.failure "kv store down"))
                                       "cannot store state"))
      /\ count isLogWarn
           (trace (runConnectCommand Script.api Script.consts Script.userLevel
                     Script.alice connect (Script.storeDown Script.calm)))
         = 0).
Proof.
  cbv zeta. split.
  - destruct (pending_store_failure_policy Script.api Script.consts
                Script.userLevel Script.alice
                (Script.inChannel "alice" "/zoom start")) as (Hstart & _).
    assert (passesGuards Script.api (Script.inChannel "alice" "/zoom start")
              Script.alice
              (Script.storeDown (Script.disconnected Script.calm))
              (Script.storeDown (Script.disconnected Script.calm))) as Hguards.
    { do 4 eexists; split; reflexivity. }
    exact (Hstart ""
             (Script.storeDown (Script.disconnected Script.calm))
             (Script.storeDown (Script.disconnected Script.calm))
             (Script.storeDown (Script.disconnected Script.calm))
             (Script.storeDown (Script.disconnected Script.calm))
             {| Message := "You must connect to Zoom first";
                Err := Some (errorsNew "no token") |}
             (Some (Script.failure "kv store down"))
             Hguards eq_refl eq_refl).
  - destruct (pending_store_failure_policy Script.api Script.consts
                Script.userLevel Script.alice
                (Script.inChannel "alice" "/zoom connect")) as (_ & Hconnect).
    assert (connectNeedsState Script.api Script.consts Script.userLevel
              Script.alice (Script.storeDown Script.calm)
              "https://chat.example.org" (Script.storeDown Script.calm))
      as Hneeds.
    { split; [reflexivity|].
      exists (Script.storeDown Script.calm). split; [reflexivity|].
      exists (errorsNew "not connected"). reflexivity. }
    exact (Hconnect (Script.storeDown Script.calm) (Script.storeDown Script.calm)
             (Script.storeDown Script.calm) "https://chat.example.org"
             (Some (Script.failure "kv store down")) Hneeds eq_refl).
Defined.

(** C6, as the specification words it, fails on both paths of
    [runConnectCommand]: with the store down the command returns the empty
    message and an error, and with the store up it returns the OAuth
    prompt and no error; the failure is not logged by the command. *)
Lemma connect_store_failure_escalates :
  let args := Script.inChannel "alice" "/zoom connect" in
  let admin := Script.inChannel "root" "/zoom connect" in
  let failed := Some (errorsWrap (ofAppError (Script.failure "kv store down"))
                                 "cannot store state") in
  let prompt :=
      "[Click here to link your Zoom account.](https://chat.example.org/plugins/zoom/oauth2/connect)" in
  (result (runConnectCommand Script.api Script.consts Script.userLevel
             Script.alice args (Script.storeDown Script.calm))
   = Returned ("", failed)
   /\ result (runConnectCommand Script.api Script.consts Script.userLevel
                Script.alice args Script.calm)
      = Returned (prompt, None)
   /\ count isLogWarn
        (trace (runConnectCommand Script.api Script.consts Script.userLevel
                  Script.alice args (Script.storeDown Script.calm))) = 0)
  /\ (result (runConnectCommand Script.api Script.consts Script.accountLevel
                Script.root admin (Script.storeDown Script.calm))
      = Returned ("", failed)
      /\ result (runConnectCommand Script.api Script.consts Script.accountLevel
                   Script.root admin Script.calm)
         = Returned (prompt, None)
      /\ count isLogWarn
           (trace (runConnectCommand Script.api Script.consts Script.accountLevel
                     Script.root admin (Script.storeDown Script.calm))) = 0).
Proof.
  cbv zeta. repeat split.
Qed.

Lemma pending_flag_by_command_witness :
  let connect r := runConnectCommand Script.api Script.consts r in
  let start := runStartCommand Script.api Script.consts
                 (Script.inChannel "alice" "/zoom start") Script.alice ""
                 (Script.disconnected Script.calm) in
  (filter isStoreState
     (trace (connect Script.accountLevel Script.root
                     (Script.inChannel "root" "/zoom connect") Script.calm))
   = [EvStoreOAuthUserState "root" "town-square" true]
   /\ Script.pending
        (world (connect Script.accountLevel Script.root
                        (Script.inChannel "root" "/zoom connect") Script.calm))
      = [("root", "town-square", true)])
  /\ (filter isStoreState
        (trace (connect Script.userLevel Script.alice
                        (Script.inChannel "alice" "/zoom connect") Script.calm))
      = [EvStoreOAuthUserState "alice" "town-square" true]
      /\ Script.pending
           (world (connect Script.userLevel Script.alice
                           (Script.inChannel "alice" "/zoom connect")
                           Script.calm))
         = [("alice", "town-square", true)])
  /\ (filter isStoreState (trace start)
      = [EvStoreOAuthUserState "alice" "town-square" false]
      /\ Script.pending (world start) = [("alice", "town-square", false)]).
Proof.
  cbv zeta. split; [|split].
  - destruct (pending_flag_by_command Script.api Script.consts
                Script.accountLevel Script.root
                (Script.inChannel "root" "/zoom connect")) as (Hconnect & _).
    assert (connectNeedsState Script.api Script.consts Script.accountLevel
              Script.root Script.calm "https://chat.example.org" Script.calm)
      as Hneeds.
    { split; [reflexivity|].
      exists Script.calm. split; [reflexivity|].
      exists false, None. split; reflexivity. }
    destruct (Hconnect Script.calm Script.calm "https://chat.example.org" Hneeds)
      as (Hflag & Hworld).
    split; [exact Hflag | rewrite Hworld; reflexivity].
  - destruct (pending_flag_by_command Script.api Script.consts
                Script.userLevel Script.alice
                (Script.inChannel "alice" "/zoom connect")) as (Hconnect & _).
    assert (connectNeedsState Script.api Script.consts Script.userLevel
              Script.alice Script.calm "https://chat.example.org" Script.calm)
      as Hneeds.
    { split; [reflexivity|].
      exists Script.calm. split; [reflexivity|].
      exists (errorsNew "not connected"). reflexivity. }
    destruct (Hconnect Script.calm Script.calm "https://chat.example.org" Hneeds)
      as (Hflag & Hworld).
    split; [exact Hflag | rewrite Hworld; reflexivity].
  - destruct (pending_flag_by_command Script.api Script.consts
                Script.userLevel Script.alice
                (Script.inChannel "alice" "/zoom start")) as (_ & Hstart).
    assert (passesGuards Script.api (Script.inChannel "alice" "/zoom start")
              Script.alice (Script.disconnected Script.calm)
              (Script.disconnected Script.calm)) as Hguards.
    { do 4 eexists; split; reflexivity. }
    destruct (Hstart "" (Script.disconnected Script.calm)
                (Script.disconnected Script.calm)
                (Script.disconnected Script.calm)
                {| Message := "You must connect to Zoom first";
                   Err := Some (errorsNew "no token") |}
                Hguards eq_refl) as (Hflag & Hworld).
    split; [exact Hflag | rewrite Hworld; reflexivity].
Defined.

(** * Further properties of the commands *)

Ltac split_calls :=
  repeat (cbn -[String.eqb Z.eqb]; rewrite ?Z.eqb_refl;
          match goal with
          | |- context [match ?c with _ => _ end] =>
            lazymatch c with
            | context [match _ with _ => _ end] => fail
            | _ => destruct c
            end
          end).

(** ** The start command on every input *)

Section StartInvariants.

Context {W : Type} (x : Collaborators W) (k : PackageConstants).
Variables (args : CommandArgs) (user : User) (topic : string).

(** X1. Whatever the collaborators answer, [runStartCommand] returns, and
    it takes one road at most: the confirmation post, the store of a
    pending connection, the ask prompt and the creation call exclude each
    other; there is at most one announcement, and it is never made after a
    confirmation, a store or a prompt; the start event is emitted only
    after an announcement, and then the command returns the empty message
    and no error. *)
Theorem start_single_outcome (w : W) :
  let r := runStartCommand x k args user topic w in
  (exists msg err, result r = Returned (msg, err))
  /\ count isPostConfirm (trace r) + count isStoreState (trace r)
     + count isAskPrompt (trace r) + count isCreateMeeting (trace r) <= 1
  /\ count isPostMeeting (trace r) <= 1
  /\ (count isPostMeeting (trace r) = 1 ->
      count isPostConfirm (trace r) + count isStoreState (trace r)
      + count isAskPrompt (trace r) = 0)
  /\ count isTrackMeetingStart (trace r) <= count isPostMeeting (trace r)
  /\ (count isTrackMeetingStart (trace r) = 1 -> result r = Returned ("", None)).
Proof.
  cbv zeta. unfold_cmd. unfold count. split_calls.
  all: cbn; repeat split; try lia; try (intros; discriminate);
    try (do 2 eexists; reflexivity); try reflexivity.
Qed.

End StartInvariants.

Section StartRoads.

Context {W : Type} (x : Collaborators W) (k : PackageConstants).
Variables (args : CommandArgs) (user : User) (topic : string).

(** X2. When the membership lookup fails, [runStartCommand] answers that
    the channel members could not be got, after that one call.  When the
    scan of the previous messages fails it answers so after the two guard
    calls, even if the scan also reported a recent meeting.  Neither is
    returned as an error. *)
Theorem start_guard_failures (w : W) :
  (forall e w1,
      GetChannelMember x (ChannelId args) (Id user) w = (Some e, w1) ->
      runStartCommand x k args user topic w
      = (Returned ("We could not get channel members (channelId: "
                   ++ ChannelId args ++ ")", None),
         w1, [EvGetChannelMember (ChannelId args) (Id user)]))
  /\ (forall w1 w2 found link creator provider e,
      GetChannelMember x (ChannelId args) (Id user) w = (None, w1) ->
      checkPreviousMessages x (ChannelId args) w1
      = ((found, link, creator, provider, Some e), w2) ->
      runStartCommand x k args user topic w
      = (Returned ("Error checking previous messages", None), w2,
         startGuardsTrace args user)).
Proof.
  split.
  - intros e w1 Hmember. unfold_cmd. now rewrite Hmember.
  - intros w1 w2 found link creator provider e Hmember Hrecent. unfold_cmd.
    rewrite Hmember. cbn. now rewrite Hrecent.
Qed.

(** X3. The topic given to [runStartCommand] reaches the confirmation post
    and nothing else: a run that makes no confirmation post is the same run
    for every topic. *)
Theorem start_topic_unused (topic' : string) (w : W) :
  count isPostConfirm (trace (runStartCommand x k args user topic w)) = 0 ->
  runStartCommand x k args user topic' w = runStartCommand x k args user topic w.
Proof.
  unfold runStartCommand, count, trace, bind, call, exec, ret.
  destruct (GetChannelMember x (ChannelId args) (Id user) w) as [[e|] w1];
    [reflexivity|].
  destruct (checkPreviousMessages x (ChannelId args) w1)
    as [[[[[found link] creator] provider] [e|]] w2]; [reflexivity|].
  destruct found; [|reflexivity].
  cbn. discriminate.
Qed.

(** X4. Past the three guards with the preference "true": when the personal
    meeting number of the identity is the sentinel [-1] the command returns
    the empty message and no error and announces nothing; otherwise it
    announces the meeting of that number with the default topic, emits the
    start event when the announcement succeeds, and returns the failure of
    the announcement, if any, as its error; the world left is the one left
    by the announcement, then by the start event when it is emitted. *)
Theorem start_with_pmi (w w2 w3 w4 : W) (zoomUser : ZoomUser) :
  passesGuards x args user w w2 ->
  authenticateAndFetchZoomUser x user w2 = (inl zoomUser, w3) ->
  getPMISettingData x (Id user) w3 = (("true", None), w4) ->
  let r := runStartCommand x k args user topic w in
  let lead := (startGuardsTrace args user ++
               [EvAuthenticateAndFetchZoomUser user;
                EvGetPMISettingData (Id user)])%list in
  (Pmi zoomUser = noMeeting -> r = (Returned ("", None), w4, lead))
  /\ (Pmi zoomUser <> noMeeting ->
      forall posted w5,
        postMeeting x user (Pmi zoomUser) (ChannelId args) (RootId args)
                    (defaultMeetingTopic k) w4 = (posted, w5) ->
        result r = Returned ("", posted)
        /\ world r = (if isNil posted
                      then trackMeetingStart x (UserId args) "command" w5
                      else w5)
        /\ trace r
           = (lead ++
              EvPostMeeting user (Pmi zoomUser) (ChannelId args) (RootId args)
                            (defaultMeetingTopic k)
              :: if isNil posted
                 then [EvTrackMeetingStart (UserId args) "command"]
                 else [])%list).
Proof.
  intros Hguards Hauth Hpref. cbv zeta.
  rewrite (runStartCommand_authenticated x k args user topic w w2 w3 zoomUser
             Hguards Hauth).
  unfold bind.
  rewrite (decideMeeting_cases x k args user zoomUser w3 w4 "true" None Hpref).
  cbn -[postAndTrack]. rewrite postAndTrack_cases. split.
  - intros ->. reflexivity.
  - intros Hid posted w5 Hpost. apply Z.eqb_neq in Hid. rewrite Hid.
    cbv zeta. rewrite Hpost. destruct posted; repeat split.
Qed.

(** X5. Past the three guards with a preference that asks for a fresh
    meeting: when the creation call reports an error the command returns
    the generic error "error while create new meeting", whatever the cause
    and the identifier that came with it; when the call reports no error
    but the sentinel [-1], the command returns the empty message and no
    error.  In both cases nothing is announced and no start event is
    emitted. *)
Theorem start_creation_without_meeting
        (w w2 w3 w4 w5 : W) (zoomUser : ZoomUser) (pref : string)
        (meetingID : Z) (createMeetingErr : error) :
  passesGuards x args user w w2 ->
  authenticateAndFetchZoomUser x user w2 = (inl zoomUser, w3) ->
  getPMISettingData x (Id user) w3 = ((pref, None), w4) ->
  pref <> "" -> pref <> "ask" -> pref <> "true" ->
  createMeetingWithoutPMI x user zoomUser (ChannelId args)
                          (defaultMeetingTopic k) w4
  = ((meetingID, createMeetingErr), w5) ->
  createMeetingErr <> None \/ meetingID = noMeeting ->
  let r := runStartCommand x k args user topic w in
  result r
  = Returned ("", match createMeetingErr with
                  | Some _ => Some (errorsNew "error while create new meeting")
                  | None => None
                  end)
  /\ world r = w5
  /\ count isPostMeeting (trace r) = 0
  /\ count isTrackMeetingStart (trace r) = 0.
Proof.
  intros Hguards Hauth Hpref He Ha Ht Hcreate Hnone. cbv zeta.
  rewrite (runStartCommand_authenticated x k args user topic w w2 w3 zoomUser
             Hguards Hauth).
  unfold bind.
  rewrite (decideMeeting_cases x k args user zoomUser w3 w4 pref None Hpref).
  rewrite (eqb_false_of_neq _ _ He), (eqb_false_of_neq _ _ Ha),
    (eqb_false_of_neq _ _ Ht).
  cbn -[postAndTrack]. rewrite Hcreate. cbn -[postAndTrack].
  rewrite postAndTrack_cases.
  destruct createMeetingErr as [e|]; [repeat split|].
  destruct Hnone as [Hcontra | ->]; [congruence|]. repeat split.
Qed.

End StartRoads.

(** ** The dispatcher *)

Section Dispatcher.

Context {W : Type} (x : Collaborators W) (k : PackageConstants) (p : Plugin).
Variable args : CommandArgs.

Lemma action_nonempty (raw cmd action : string) (rest : list string) :
  strings.Fields raw = cmd :: action :: rest -> String.eqb action "" = false.
Proof.
  intros Hsplit. pose proof (Fields_nonempty raw) as Hne. rewrite Hsplit in Hne.
  inversion Hne as [|? ? _ Hne1]; subst. inversion Hne1; subst.
  now apply eqb_false_of_neq.
Qed.

(** The dispatcher once the command is parsed and the user found. *)
Lemma executeCommand_found (action : string) (rest : list string)
      (user : User) (w w1 : W) :
  strings.Fields (Command args) = "/zoom" :: action :: rest ->
  GetUser x (UserId args) w = (inl user, w1) ->
  executeCommand x k p args w
  = after [EvGetUser (UserId args)]
      ((if String.eqb action actionConnect then runConnectCommand x k p user args
        else if String.eqb action actionStart
             then runStartCommand x k args user (strings.Join rest " ")
        else if String.eqb action actionDisconnect then runDisconnectCommand x p user
        else if String.eqb action actionHelp then runHelpCommand p
        else if String.eqb action "setting" then runSettingCommand x rest user
        else ret ("Unknown action " ++ action, None)) w1).
Proof.
  intros Hsplit Huser. unfold executeCommand.
  rewrite (parseCommand_unfold _ _ _ Hsplit). rewrite Hsplit.
  cbn [hd tl]. unfold bind at 1. unfold lift at 1.
  change (String.eqb "/zoom" "/zoom") with true. cbn [negb].
  rewrite (action_nonempty _ _ _ _ Hsplit). rewrite orb_false_r.
  unfold bind at 1. unfold call at 1. rewrite Huser.
  unfold after, result, world, trace.
  destruct (String.eqb action actionConnect) eqn:Hc.
  { apply String.eqb_eq in Hc. subst action. cbn -[runConnectCommand].
    destruct (runConnectCommand x k p user args w1) as [[r w'] t]. reflexivity. }
  destruct (String.eqb action actionStart) eqn:Hs.
  { destruct (runStartCommand x k args user (strings.Join rest " ") w1)
      as [[r w'] t]. reflexivity. }
  destruct (String.eqb action actionDisconnect).
  { destruct (runDisconnectCommand x p user w1) as [[r w'] t]. reflexivity. }
  destruct (String.eqb action actionHelp).
  { destruct (runHelpCommand p w1) as [[r w'] t]. reflexivity. }
  destruct (String.eqb action "setting").
  { unfold bind, lift, sliceFrom. cbn [length Nat.leb skipn].
    destruct (runSettingCommand x rest user w1) as [[r w'] t]. reflexivity. }
  reflexivity.
Qed.

(** X6. A command whose first token is not "/zoom" is answered with the
    corrective message, and "/zoom" alone with the request for an action;
    in both cases without error and without any call to a collaborator. *)
Theorem executeCommand_input_errors (w : W) :
  (forall cmd more,
      strings.Fields (Command args) = cmd :: more -> cmd <> "/zoom" ->
      executeCommand x k p args w
      = (Returned ("Command '" ++ cmd ++ "' is not /zoom. Please try again.",
                   None), w, []))
  /\ (strings.Fields (Command args) = ["/zoom"] ->
      executeCommand x k p args w
      = (Returned ("Please specify an action for /zoom command.", None), w, [])).
Proof.
  split.
  - intros cmd more Hsplit Hcmd. unfold executeCommand.
    rewrite (parseCommand_unfold _ _ _ Hsplit).
    unfold bind, lift. rewrite (eqb_false_of_neq _ _ Hcmd). reflexivity.
  - intros Hsplit. unfold executeCommand.
    rewrite (parseCommand_unfold _ _ _ Hsplit). reflexivity.
Qed.

(** X7. When the invoking user cannot be retrieved, every "/zoom" command
    with an action, known or not, is answered with the message that names
    the user identifier, without error, after the single lookup. *)
Theorem executeCommand_unknown_user
        (action : string) (rest : list string) (e : AppError) (w w1 : W) :
  strings.Fields (Command args) = "/zoom" :: action :: rest ->
  GetUser x (UserId args) w = (inr e, w1) ->
  executeCommand x k p args w
  = (Returned ("We could not retrieve user (userId: " ++ UserId args ++ ")",
               None), w1, [EvGetUser (UserId args)]).
Proof.
  intros Hsplit Huser. unfold executeCommand.
  rewrite (parseCommand_unfold _ _ _ Hsplit).
  cbn [hd tl]. unfold bind at 1. unfold lift at 1.
  change (String.eqb "/zoom" "/zoom") with true. cbn [negb].
  rewrite (action_nonempty _ _ _ _ Hsplit).
  unfold bind, call. rewrite Huser. reflexivity.
Qed.

(** X8. Once the user is found, "/zoom" followed by an action runs the
    operation of that action after the user lookup: "connect", "start"
    (with the tokens after the action, joined by single spaces, as topic),
    "disconnect", "help", and "setting" (with the tokens after the action
    as arguments; the slice never goes out of range).  Any other action is
    answered "Unknown action" followed by the action, without error. *)
Theorem executeCommand_routes
        (action : string) (rest : list string) (user : User) (w w1 : W) :
  strings.Fields (Command args) = "/zoom" :: action :: rest ->
  GetUser x (UserId args) w = (inl user, w1) ->
  let went op := executeCommand x k p args w
                 = after [EvGetUser (UserId args)] (op w1) in
  (action = "connect" -> went (runConnectCommand x k p user args))
  /\ (action = "start" ->
      went (runStartCommand x k args user (strings.Join rest " ")))
  /\ (action = "disconnect" -> went (runDisconnectCommand x p user))
  /\ (action = "help" -> went (runHelpCommand p))
  /\ (action = "setting" -> went (runSettingCommand x rest user))
  /\ (~ In action routedActions ->
      went (ret ("Unknown action " ++ action, None))).
Proof.
  intros Hsplit Huser. cbv zeta.
  rewrite (executeCommand_found action rest user w w1 Hsplit Huser).
  repeat split; try (intros ->; reflexivity).
  intros Hnot. unfold routedActions in Hnot. cbn [In] in Hnot.
  rewrite !eqb_false_of_neq; [reflexivity | | | | |];
    intros ->; apply Hnot; auto 6.
Qed.

(** X9. A command without any token makes the dispatcher panic on its
    first index expression, before any call to a collaborator; the entry
    point [ExecuteCommand] panics with it, and nothing is logged or
    posted. *)
Theorem executeCommand_without_tokens (w : W) :
  strings.Fields (Command args) = [] ->
  executeCommand x k p args w = (Panicked "index out of range", w, [])
  /\ ExecuteCommand x k p args w = (Panicked "index out of range", w, []).
Proof.
  intros Hsplit.
  assert (executeCommand x k p args w = (Panicked "index out of range", w, []))
    as Hexec.
  { unfold executeCommand, parseCommand. rewrite Hsplit. reflexivity. }
  split; [exact Hexec|]. unfold ExecuteCommand, bind. now rewrite Hexec.
Qed.

End Dispatcher.

(** ** Connecting and disconnecting *)

Section ConnectDisconnect.

Context {W : Type} (x : Collaborators W) (k : PackageConstants) (p : Plugin).
Variables (user : User) (args : CommandArgs).

(** X10. When OAuth is not enabled, or the deployment is account-level and
    the user is not a system administrator, "connect" and "disconnect"
    answer "Unknown action" with their name between backquotes, without
    error and without any call: no configuration read, no token or
    identity touched, nothing stored. *)
Theorem connect_permission_gate (w : W) :
  OAuthEnabled x w = false
  \/ (AccountLevelApp (configuration p) = true /\ IsSystemAdmin user = false) ->
  runConnectCommand x k p user args w
  = (Returned ("Unknown action `connect`", None), w, [])
  /\ runDisconnectCommand x p user w
     = (Returned ("Unknown action `disconnect`", None), w, []).
Proof.
  intros Hgate.
  assert (OAuthEnabled x w
          && (negb (AccountLevelApp (configuration p)) || IsSystemAdmin user)
          = false) as Hcan.
  { destruct Hgate as [-> | [-> ->]]; [reflexivity | apply andb_false_r]. }
  unfold runConnectCommand, runDisconnectCommand, canConnect, bind.
  now rewrite Hcan.
Qed.


(** X12. [runConnectCommand] builds the OAuth prompt from the site URL
    before it looks for a token or an identity.  It panics exactly when the
    user may connect and the site URL of the configuration is nil, and then
    right after reading the configuration, whether or not the user is
    already connected. *)
Theorem connect_panics_iff_no_site_url (w : W) :
  (exists reason, result (runConnectCommand x k p user args w) = Panicked reason)
  <->
  (OAuthEnabled x w
   && (negb (AccountLevelApp (configuration p)) || IsSystemAdmin user) = true
   /\ fst (GetConfigSiteURL x w) = None).
Proof.
  unfold runConnectCommand, storeAndPrompt, canConnect, bind, call, lift, ret,
    result.
  destruct (OAuthEnabled x w
            && (negb (AccountLevelApp (configuration p)) || IsSystemAdmin user)).
  2: { cbn. split; [intros [r Hr]; discriminate | intros [H _]; discriminate]. }
  cbn -[String.append].
  destruct (GetConfigSiteURL x w) as [[site|] w1]; cbn -[String.append].
  2: { split; [auto | intros _; eexists; reflexivity]. }
  split; [|intros [_ H]; discriminate].
  intros [reason Hr]. exfalso. revert Hr.
  destruct (AccountLevelApp (configuration p)).
  - destruct (getSuperuserToken x w1) as [[token [e|]] w2]; cbn.
    + destruct (storeOAuthUserState x (Id user) (ChannelId args) true w2)
        as [[e'|] w3]; discriminate.
    + destruct token; cbn; [discriminate|].
      destruct (storeOAuthUserState x (Id user) (ChannelId args) true w2)
        as [[e'|] w3]; discriminate.
  - destruct (fetchOAuthUserInfo x (zoomUserByMMID k) (Id user) w1)
      as [[e|] w2]; cbn; [|discriminate].
    destruct (storeOAuthUserState x (Id user) (ChannelId args) true w2)
      as [[e'|] w3]; discriminate.
Qed.


End ConnectDisconnect.

(** ** Settings and help *)

Section SettingsAndHelp.

Context {W : Type} (x : Collaborators W) (p : Plugin).
Variable user : User.

Lemma pmiSettingValues_spec (v : string) :
  String.eqb v trueString || String.eqb v falseString
  || String.eqb v zoomPMISettingValueAsk = true
  <-> In v pmiSettingValues.
Proof.
  unfold pmiSettingValues. cbn [In]. rewrite !orb_true_iff, !String.eqb_eq.
  intuition congruence.
Qed.

(** X14. [runSettingCommand] always returns, and never an error.  It
    writes a preference exactly when its first argument is "use_pmi" and
    its second is "true", "false" or "ask": then it makes one write, of the
    one record of the user under "plugin:zoom" and "use-pmi" with that
    value, whatever arguments follow, and leaves the world that this write
    leaves.  Otherwise it makes no call at all and leaves the world as it
    was. *)
Theorem setting_writes_only_accepted (settingArgs : list string) (w : W) :
  let r := runSettingCommand x settingArgs user w in
  let accepted :=
      nth_error settingArgs 0 = Some "use_pmi"
      /\ exists v, nth_error settingArgs 1 = Some v /\ In v pmiSettingValues in
  (exists msg, result r = Returned (msg, None))
  /\ (accepted ->
      trace r = [EvUpdatePreferencesForUser (Id user)
                   [pmiPreference (Id user) (nth 1 settingArgs "")]]
      /\ world r
         = snd (UpdatePreferencesForUser x (Id user)
                  [pmiPreference (Id user) (nth 1 settingArgs "")] w))
  /\ (~ accepted -> trace r = [] /\ world r = w).
Proof.
  cbv zeta. unfold runSettingCommand.
  destruct settingArgs as [|a rest].
  { cbn. split; [eexists; reflexivity | split].
    - intros [H _]. discriminate H.
    - intros _. split; reflexivity. }
  cbn [nth_error nth].
  destruct (String.eqb_spec a "use_pmi") as [-> | Hname].
  - destruct rest as [|v rest'].
    { cbn. split; [eexists; reflexivity | split].
      - intros [_ [v [H _]]]. discriminate H.
      - intros _. split; reflexivity. }
    cbn [nth_error nth]. unfold runPMISettingCommand.
    destruct (String.eqb v trueString || String.eqb v falseString
              || String.eqb v zoomPMISettingValueAsk) eqn:Hv.
    + assert (nth_error ("use_pmi" :: v :: rest') 0 = Some "use_pmi"
              /\ exists v', nth_error ("use_pmi" :: v :: rest') 1 = Some v'
                            /\ In v' pmiSettingValues) as Hacc.
      { split; [reflexivity|]. exists v. split; [reflexivity|].
        now apply pmiSettingValues_spec. }
      unfold bind, call, ret, result, trace, world, pmiPreference.
      destruct (UpdatePreferencesForUser x (Id user) _ w) as [[e|] w1].
      * split; [eexists; reflexivity | split].
        -- intros _. split; reflexivity.
        -- intros Hnot. contradiction.
      * split; [eexists; reflexivity | split].
        -- intros _. split; reflexivity.
        -- intros Hnot. contradiction.
    + cbn. split; [eexists; reflexivity | split].
      * intros [_ [v' [Hv' Hin]]]. injection Hv' as <-.
        apply pmiSettingValues_spec in Hin. congruence.
      * intros _. split; reflexivity.
  - assert (Some a <> Some "use_pmi") as Hfirst by congruence.
    destruct (String.eqb a ""); cbn.
    + split; [eexists; reflexivity | split].
      * intros [H _]. contradiction.
      * intros _. split; reflexivity.
    + split; [eexists; reflexivity | split].
      * intros [H _]. contradiction.
      * intros _. split; reflexivity.
Qed.

(** X15. [runHelpCommand] makes no call and returns no error.  Its text
    holds the line of "/zoom disconnect" exactly when OAuth is enabled in
    the configuration, never a line of "/zoom connect" nor of the "use_pmi"
    setting, and no vertical bar is left in it. *)
Theorem help_text (w : W) :
  exists text,
    runHelpCommand p w = (Returned (text, None), w, [])
    /\ strings.Contains text "/zoom disconnect" = EnableOAuth (configuration p)
    /\ strings.Contains text "/zoom connect" = false
    /\ strings.Contains text "use_pmi" = false
    /\ strings.Contains text "|" = false.
Proof.
  unfold runHelpCommand, ret. eexists. split; [reflexivity|].
  destruct (EnableOAuth (configuration p)); vm_compute; repeat split.
Qed.

End SettingsAndHelp.

(** ** The entry point *)

Section EntryPoint.

Context {W : Type} (x : Collaborators W) (k : PackageConstants) (p : Plugin).
Variable args : CommandArgs.

Lemma runStartCommand_returns (user : User) (topic : string) (w : W) :
  exists msg err, result (runStartCommand x k args user topic w) = Returned (msg, err).
Proof.
  unfold_cmd. split_calls. all: do 2 eexists; reflexivity.
Qed.

Lemma runDisconnectCommand_returns (user : User) (w : W) :
  exists msg err, result (runDisconnectCommand x p user w) = Returned (msg, err).
Proof.
  unfold runDisconnectCommand, canConnect, bind, call, exec, ret, result.
  split_calls. all: do 2 eexists; reflexivity.
Qed.

Lemma runSettingCommand_returns (settingArgs : list string) (user : User) (w : W) :
  exists msg err, result (runSettingCommand x settingArgs user w) = Returned (msg, err).
Proof.
  unfold runSettingCommand, runPMISettingCommand, bind, call, exec, ret, result.
  split_calls. all: do 2 eexists; reflexivity.
Qed.

(** X16. A command with at least one token whose action is not "connect"
    never makes the dispatcher panic: it returns a message and possibly an
    error, whatever the collaborators answer. *)
Theorem executeCommand_returns (cmd : string) (more : list string) (w : W) :
  strings.Fields (Command args) = cmd :: more ->
  nth 0 more "" <> "connect" ->
  exists msg err, result (executeCommand x k p args w) = Returned (msg, err).
Proof.
  intros Hsplit Hconnect.
  destruct (String.eqb_spec cmd "/zoom") as [-> | Hcmd].
  2: { unfold executeCommand. rewrite (parseCommand_unfold _ _ _ Hsplit).
       unfold bind, lift. rewrite (eqb_false_of_neq _ _ Hcmd).
       do 2 eexists; reflexivity. }
  destruct more as [|action rest].
  { unfold executeCommand. rewrite (parseCommand_unfold _ _ _ Hsplit).
    do 2 eexists; reflexivity. }
  cbn [nth] in Hconnect.
  destruct (GetUser x (UserId args) w) as [[user | e] w1] eqn:Huser.
  2: { unfold executeCommand. rewrite (parseCommand_unfold _ _ _ Hsplit).
       cbn [hd tl]. unfold bind at 1. unfold lift at 1.
       change (String.eqb "/zoom" "/zoom") with true. cbn [negb].
       rewrite (action_nonempty _ _ _ _ Hsplit).
       unfold bind, call. rewrite Huser. do 2 eexists; reflexivity. }
  rewrite (executeCommand_found x k p args action rest user w w1 Hsplit Huser).
  rewrite result_after.
  unfold actionConnect. rewrite (eqb_false_of_neq _ _ Hconnect).
  destruct (String.eqb action actionStart); [apply runStartCommand_returns|].
  destruct (String.eqb action actionDisconnect);
    [apply runDisconnectCommand_returns|].
  destruct (String.eqb action actionHelp); [do 2 eexists; reflexivity|].
  destruct (String.eqb action "setting"); [apply runSettingCommand_returns|].
  do 2 eexists; reflexivity.
Qed.

(** X17. What [ExecuteCommand] adds to a run of the dispatcher that
    returned: a warning with the text of the error when there is one, then
    one ephemeral post to the invoking user, from the bot, in the channel
    of the command, when the message is not empty.  An error that comes
    with an empty message is logged and the user is sent nothing.  The
    world left is the one left by the warning and the post, in that
    order. *)
Theorem ExecuteCommand_reports
        (msg : string) (err : error) (w w1 : W) (t : list Event) :
  executeCommand x k p args w = (Returned (msg, err), w1, t) ->
  let r := ExecuteCommand x k p args w in
  result r = Returned tt
  /\ world r
     = (let logged := match err with
                      | Some e => LogWarn x "failed to execute command"
                                          ["error"; Error e] w1
                      | None => w1
                      end in
        if String.eqb msg "" then logged
        else SendEphemeralPost x (UserId args)
               {| PostUserId := botUserID p;
                  PostChannelId := ChannelId args;
                  PostMessage := msg |} logged)
  /\ trace r
     = (t ++
        match err with
        | Some e => [EvLogWarn "failed to execute command" ["error"; Error e]]
        | None => []
        end ++
        if String.eqb msg "" then []
        else [EvSendEphemeralPost (UserId args)
                {| PostUserId := botUserID p;
                   PostChannelId := ChannelId args;
                   PostMessage := msg |}])%list.
Proof.
  intros Hexec. cbv zeta.
  unfold ExecuteCommand, postCommandResponse, bind, exec, ret, result, world,
    trace.
  rewrite Hexec.
  destruct err as [e|]; destruct (String.eqb msg ""); cbn;
    rewrite ?app_nil_r; repeat split.
Qed.

(** X18. End to end, when the provider fails to create the meeting of a
    "/zoom start" command, the user is sent nothing: the entry point only
    logs the generic error "error while create new meeting", and neither
    an ephemeral post nor an announcement is made; the world left is the
    one the failed creation left, with that warning logged. *)
Theorem start_creation_failure_is_silent
        (rest : list string) (user : User) (zoomUser : ZoomUser)
        (pref : string) (meetingID : Z) (cause : GoErr)
        (w0 w w2 w3 w4 w5 : W) :
  strings.Fields (Command args) = "/zoom" :: "start" :: rest ->
  GetUser x (UserId args) w0 = (inl user, w) ->
  passesGuards x args user w w2 ->
  authenticateAndFetchZoomUser x user w2 = (inl zoomUser, w3) ->
  getPMISettingData x (Id user) w3 = ((pref, None), w4) ->
  pref <> "" -> pref <> "ask" -> pref <> "true" ->
  createMeetingWithoutPMI x user zoomUser (ChannelId args)
                          (defaultMeetingTopic k) w4
  = ((meetingID, Some cause), w5) ->
  let r := ExecuteCommand x k p args w0 in
  result r = Returned tt
  /\ world r
     = LogWarn x "failed to execute command"
               ["error"; "error while create new meeting"] w5
  /\ trace r
     = (EvGetUser (UserId args) :: startGuardsTrace args user ++
        [EvAuthenticateAndFetchZoomUser user;
         EvGetPMISettingData (Id user);
         EvCreateMeetingWithoutPMI user zoomUser (ChannelId args)
                                   (defaultMeetingTopic k);
         EvLogWarn "failed to execute command"
                   ["error"; "error while create new meeting"]])%list
  /\ count isEphemeralPost (trace r) = 0
  /\ count isPostMeeting (trace r) = 0.
Proof.
  intros Hsplit Huser Hguards Hauth Hpref He Ha Ht Hcreate. cbv zeta.
  assert (executeCommand x k p args w0
          = (Returned ("", Some (errorsNew "error while create new meeting")),
             w5,
             (EvGetUser (UserId args) :: startGuardsTrace args user ++
              [EvAuthenticateAndFetchZoomUser user;
               EvGetPMISettingData (Id user);
               EvCreateMeetingWithoutPMI user zoomUser (ChannelId args)
                                         (defaultMeetingTopic k)])%list))
    as Hexec.
  { rewrite (executeCommand_found x k p args "start" rest user w0 w Hsplit Huser).
    cbn -[runStartCommand].
    rewrite (runStartCommand_authenticated x k args user _ w w2 w3 zoomUser
               Hguards Hauth).
    unfold bind.
    rewrite (decideMeeting_cases x k args user zoomUser w3 w4 pref None Hpref).
    rewrite (eqb_false_of_neq _ _ He), (eqb_false_of_neq _ _ Ha),
      (eqb_false_of_neq _ _ Ht).
    cbn -[postAndTrack]. rewrite Hcreate. cbn -[postAndTrack].
    rewrite postAndTrack_cases. reflexivity. }
  unfold ExecuteCommand, bind, exec, ret, result, world, trace.
  rewrite Hexec. cbn. repeat split.
Qed.

End EntryPoint.

(** ** Autocomplete data against the commands *)

Section AutocompleteFacts.

Context {W : Type} (x : Collaborators W) (p : Plugin).

Import Autocomplete.

(** X19. The node that [getAutocompleteData] returns is that of "zoom".
    Its subcommands are, in order, "start", then "connect" and "disconnect"
    when OAuth is enabled and the deployment is not account-level, then
    "setting" and "help".  Each of them is an action that the dispatcher
    routes, and "connect" and "disconnect" are offered only where every
    user may connect. *)
Theorem autocomplete_offers_routed_actions (w : W) :
  let root := fst (getAutocompleteData x p w) in
  let h := snd (getAutocompleteData x p w) in
  triggerOf h root = "zoom"
  /\ offered h root
     = ("start" ::
        (if OAuthEnabled x w && negb (AccountLevelApp (configuration p))
         then ["connect"; "disconnect"] else []) ++ ["setting"; "help"])%list
  /\ (forall a, In a (offered h root) -> In a routedActions)
  /\ (In "connect" (offered h root) \/ In "disconnect" (offered h root) ->
      forall user, result (canConnect x p user w) = Returned true).
Proof.
  cbv zeta. unfold getAutocompleteData, canConnect, result.
  destruct (OAuthEnabled x w); destruct (AccountLevelApp (configuration p));
    destruct (EnableOAuth (configuration p)); cbn.
  all: split; [reflexivity|]; split; [reflexivity|]; split.
  all: try (intros a Ha; unfold routedActions, actionConnect, actionStart,
            actionDisconnect, actionHelp; cbn [In] in *; intuition congruence).
  all: try (intros _ user; reflexivity).
  all: intros [Hin | Hin]; exfalso; cbn [In] in Hin;
    repeat (destruct Hin as [Hin | Hin]; [discriminate Hin|]); exact Hin.
Qed.

(** X20. In the data that [getAutocompleteData] returns, the node of
    "setting" has the subcommand "use_pmi", although that subcommand is
    attached after "setting" itself was attached to "zoom".  Its static
    list offers "ask", "true" and "false", and a value is offered there
    exactly when [runPMISettingCommand] writes it as a preference. *)
Theorem autocomplete_use_pmi_items (w : W) :
  let root := fst (getAutocompleteData x p w) in
  let h := snd (getAutocompleteData x p w) in
  exists setting usePMI,
    child h root "setting" = Some setting
    /\ child h setting "use_pmi" = Some usePMI
    /\ staticItems h usePMI = ["ask"; "true"; "false"]
    /\ forall v user (w' : W),
        In v (staticItems h usePMI) <->
        count isPreferenceWrite (trace (runPMISettingCommand x v user w')) = 1.
Proof.
  cbv zeta.
  assert (forall v user (w' : W),
             In v ["ask"; "true"; "false"] <->
             count isPreferenceWrite
                   (trace (runPMISettingCommand x v user w')) = 1) as Hitems.
  { intros v user w'. unfold runPMISettingCommand, bind, call, ret, trace, count.
    destruct (String.eqb v trueString || String.eqb v falseString
              || String.eqb v zoomPMISettingValueAsk) eqn:Hv.
    - apply pmiSettingValues_spec in Hv. unfold pmiSettingValues in Hv.
      destruct (UpdatePreferencesForUser x (Id user) _ w') as [[e|] w1]; cbn;
        (split; [reflexivity|]); intros _; cbn [In] in *;
        unfold trueString, falseString, zoomPMISettingValueAsk in Hv; tauto.
    - cbn. split; [|discriminate]. intros Hin. exfalso.
      assert (In v pmiSettingValues) as Hin'.
      { unfold pmiSettingValues, trueString, falseString, zoomPMISettingValueAsk.
        cbn [In] in *. tauto. }
      apply pmiSettingValues_spec in Hin'. congruence. }
  unfold getAutocompleteData.
  destruct (OAuthEnabled x w); destruct (AccountLevelApp (configuration p));
    destruct (EnableOAuth (configuration p)); cbn -[In count].
  all: do 2 eexists; split; [reflexivity|]; split; [reflexivity|];
    split; [reflexivity|]; exact Hitems.
Qed.

End AutocompleteFacts.

(** ** The further statements at work in the scripted world *)

Lemma start_guard_failures_witness :
  runStartCommand Script.api Script.consts (Script.inChannel "alice" "/zoom start")
                  Script.alice "" (Scenes.outsider Script.calm)
  = (Returned ("We could not get channel members (channelId: town-square)", None),
     Scenes.outsider Script.calm,
     [EvGetChannelMember "town-square" "alice"]).
Proof.
  destruct (start_guard_failures Script.api Script.consts
              (Script.inChannel "alice" "/zoom start") Script.alice ""
              (Scenes.outsider Script.calm)) as (Hmember & _).
  exact (Hmember (Script.failure "not a member") (Scenes.outsider Script.calm)
           eq_refl).
Defined.

Lemma start_topic_unused_witness :
  runStartCommand Script.api Script.consts (Script.inChannel "alice" "/zoom start")
                  Script.alice "team sync" (Script.prefers "false" Script.calm)
  = runStartCommand Script.api Script.consts (Script.inChannel "alice" "/zoom start")
                    Script.alice "" (Script.prefers "false" Script.calm).
Proof.
  apply (start_topic_unused Script.api Script.consts
           (Script.inChannel "alice" "/zoom start") Script.alice ""
           "team sync" (Script.prefers "false" Script.calm)).
  reflexivity.
Defined.

Lemma start_with_pmi_witness :
  let args := Script.inChannel "alice" "/zoom start" in
  let lead := [EvGetChannelMember "town-square" "alice";
               EvCheckPreviousMessages "town-square";
               EvAuthenticateAndFetchZoomUser Script.alice;
               EvGetPMISettingData "alice"] in
  let calls := (lead ++
                [EvPostMeeting Script.alice 5550100 "town-square" ""
                               "Zoom Meeting";
                 EvTrackMeetingStart "alice" "command"])%list in
  let r := runStartCommand Journal.api Script.consts args Script.alice ""
             (Journal.fresh (Script.prefers "true" Script.calm)) in
  runStartCommand Journal.api Script.consts args Script.alice ""
    (Journal.fresh (Scenes.noPMI (Script.prefers "true" Script.calm)))
  = (Returned ("", None),
     (Scenes.noPMI (Script.prefers "true" Script.calm), lead), lead)
  /\ result r = Returned ("", None)
  /\ world r = (Script.prefers "true" Script.calm, calls)
  /\ trace r = calls.
Proof.
  cbv zeta. split.
  - assert (passesGuards Journal.api (Script.inChannel "alice" "/zoom start")
              Script.alice
              (Journal.fresh (Scenes.noPMI (Script.prefers "true" Script.calm)))
              (Scenes.noPMI (Script.prefers "true" Script.calm),
               [EvGetChannelMember "town-square" "alice";
                EvCheckPreviousMessages "town-square"])) as Hguards.
    { do 4 eexists; split; reflexivity. }
    destruct (start_with_pmi Journal.api Script.consts
                (Script.inChannel "alice" "/zoom start") Script.alice ""
                (Journal.fresh (Scenes.noPMI (Script.prefers "true" Script.calm)))
                (Scenes.noPMI (Script.prefers "true" Script.calm),
                 [EvGetChannelMember "town-square" "alice";
                  EvCheckPreviousMessages "town-square"])
                (Scenes.noPMI (Script.prefers "true" Script.calm),
                 [EvGetChannelMember "town-square" "alice";
                  EvCheckPreviousMessages "town-square";
                  EvAuthenticateAndFetchZoomUser Script.alice])
                (Scenes.noPMI (Script.prefers "true" Script.calm),
                 [EvGetChannelMember "town-square" "alice";
                  EvCheckPreviousMessages "town-square";
                  EvAuthenticateAndFetchZoomUser Script.alice;
                  EvGetPMISettingData "alice"])
                {| ZoomId := "z-alice"; Pmi := noMeeting |}
                Hguards eq_refl eq_refl) as (Hsentinel & _).
    exact (Hsentinel eq_refl).
  - assert (passesGuards Journal.api (Script.inChannel "alice" "/zoom start")
              Script.alice (Journal.fresh (Script.prefers "true" Script.calm))
              (Script.prefers "true" Script.calm,
               [EvGetChannelMember "town-square" "alice";
                EvCheckPreviousMessages "town-square"])) as Hguards.
    { do 4 eexists; split; reflexivity. }
    assert (Pmi Script.zoomAlice <> noMeeting) as Hid by discriminate.
    destruct (start_with_pmi Journal.api Script.consts
                (Script.inChannel "alice" "/zoom start") Script.alice ""
                (Journal.fresh (Script.prefers "true" Script.calm))
                (Script.prefers "true" Script.calm,
                 [EvGetChannelMember "town-square" "alice";
                  EvCheckPreviousMessages "town-square"])
                (Script.prefers "true" Script.calm,
                 [EvGetChannelMember "town-square" "alice";
                  EvCheckPreviousMessages "town-square";
                  EvAuthenticateAndFetchZoomUser Script.alice])
                (Script.prefers "true" Script.calm,
                 [EvGetChannelMember "town-square" "alice";
                  EvCheckPreviousMessages "town-square";
                  EvAuthenticateAndFetchZoomUser Script.alice;
                  EvGetPMISettingData "alice"])
                Script.zoomAlice Hguards eq_refl eq_refl) as (_ & Hposts).
    destruct (Hposts Hid None
                (Script.prefers "true" Script.calm,
                 [EvGetChannelMember "town-square" "alice";
                  EvCheckPreviousMessages "town-square";
                  EvAuthenticateAndFetchZoomUser Script.alice;
                  EvGetPMISettingData "alice";
                  EvPostMeeting Script.alice 5550100 "town-square" ""
                                "Zoom Meeting"])
                eq_refl)
      as (Hres & Hworld & Htrace).
    split; [exact Hres|]. split; [rewrite Hworld; reflexivity | exact Htrace].
Defined.

Lemma start_creation_without_meeting_witness :
  let r := runStartCommand Script.api Script.consts
             (Script.inChannel "alice" "/zoom start") Script.alice ""
             (Scenes.creationDown (Script.prefers "false" Script.calm)) in
  result r = Returned ("", Some (errorsNew "error while create new meeting"))
  /\ world r = Scenes.creationDown (Script.prefers "false" Script.calm)
  /\ count isPostMeeting (trace r) = 0
  /\ count isTrackMeetingStart (trace r) = 0.
Proof.
  cbv zeta.
  assert (passesGuards Script.api (Script.inChannel "alice" "/zoom start")
            Script.alice
            (Scenes.creationDown (Script.prefers "false" Script.calm))
            (Scenes.creationDown (Script.prefers "false" Script.calm)))
    as Hguards.
  { do 4 eexists; split; reflexivity. }
  assert ("false" <> "") as He by discriminate.
  assert ("false" <> "ask") as Ha by discriminate.
  assert ("false" <> "true") as Ht by discriminate.
  assert (Some (errorsNew "provider timeout") <> None \/ noMeeting = noMeeting)
    as Hnone by (right; reflexivity).
  exact (start_creation_without_meeting Script.api Script.consts
           (Script.inChannel "alice" "/zoom start") Script.alice ""
           (Scenes.creationDown (Script.prefers "false" Script.calm))
           (Scenes.creationDown (Script.prefers "false" Script.calm))
           (Scenes.creationDown (Script.prefers "false" Script.calm))
           (Scenes.creationDown (Script.prefers "false" Script.calm))
           (Scenes.creationDown (Script.prefers "false" Script.calm))
           Script.zoomAlice "false" noMeeting
           (Some (errorsNew "provider timeout"))
           Hguards eq_refl eq_refl He Ha Ht eq_refl Hnone).
Defined.

Lemma executeCommand_input_errors_witness :
  executeCommand Script.api Script.consts Script.userLevel
                 (Script.inChannel "alice" "/meet now") Script.calm
  = (Returned ("Command '/meet' is not /zoom. Please try again.", None),
     Script.calm, [])
  /\ executeCommand Script.api Script.consts Script.userLevel
                    (Script.inChannel "alice" " /zoom ") Script.calm
     = (Returned ("Please specify an action for /zoom command.", None),
        Script.calm, []).
Proof.
  split.
  - destruct (executeCommand_input_errors Script.api Script.consts
                Script.userLevel (Script.inChannel "alice" "/meet now")
                Script.calm) as (Hother & _).
    assert ("/meet" <> "/zoom") as Hcmd by discriminate.
    exact (Hother "/meet" ["now"] eq_refl Hcmd).
  - destruct (executeCommand_input_errors Script.api Script.consts
                Script.userLevel (Script.inChannel "alice" " /zoom ")
                Script.calm) as (_ & Hbare).
    exact (Hbare eq_refl).
Defined.

Lemma executeCommand_unknown_user_witness :
  executeCommand Script.api Script.consts Script.userLevel
                 (Script.inChannel "mallory" "/zoom dance") Script.calm
  = (Returned ("We could not retrieve user (userId: mallory)", None),
     Script.calm, [EvGetUser "mallory"]).
Proof.
  exact (executeCommand_unknown_user Script.api Script.consts Script.userLevel
           (Script.inChannel "mallory" "/zoom dance") "dance" []
           (Script.failure "user not found") Script.calm Script.calm
           eq_refl eq_refl).
Defined.

Lemma executeCommand_routes_witness :
  executeCommand Script.api Script.consts Script.userLevel
                 (Script.inChannel "alice" "/zoom setting use_pmi true")
                 Script.calm
  = after [EvGetUser "alice"]
          (runSettingCommand Script.api ["use_pmi"; "true"] Script.alice
                             Script.calm)
  /\ executeCommand Script.api Script.consts Script.userLevel
                    (Script.inChannel "alice" "/zoom dance") Script.calm
     = (Returned ("Unknown action dance", None), Script.calm, [EvGetUser "alice"]).
Proof.
  split.
  - destruct (executeCommand_routes Script.api Script.consts Script.userLevel
                (Script.inChannel "alice" "/zoom setting use_pmi true")
                "setting" ["use_pmi"; "true"] Script.alice Script.calm
                Script.calm eq_refl eq_refl)
      as (_ & _ & _ & _ & Hsetting & _).
    exact (Hsetting eq_refl).
  - destruct (executeCommand_routes Script.api Script.consts Script.userLevel
                (Script.inChannel "alice" "/zoom dance")
                "dance" [] Script.alice Script.calm
                Script.calm eq_refl eq_refl)
      as (_ & _ & _ & _ & _ & Hunknown).
    assert (~ In "dance" routedActions) as Hnot.
    { unfold routedActions. cbn [In]. intros H.
      repeat (destruct H as [H | H]; [discriminate H|]). exact H. }
    exact (Hunknown Hnot).
Defined.

Lemma executeCommand_without_tokens_witness :
  executeCommand Script.api Script.consts Script.userLevel
                 (Script.inChannel "alice" "") Script.calm
  = (Panicked "index out of range", Script.calm, [])
  /\ ExecuteCommand Script.api Script.consts Script.userLevel
                    (Script.inChannel "alice" "") Script.calm
     = (Panicked "index out of range", Script.calm, []).
Proof.
  exact (executeCommand_without_tokens Script.api Script.consts Script.userLevel
           (Script.inChannel "alice" "") Script.calm eq_refl).
Defined.

Lemma connect_permission_gate_witness :
  runConnectCommand Script.api Script.consts Script.accountLevel Script.alice
                    (Script.inChannel "alice" "/zoom connect") Script.calm
  = (Returned ("Unknown action `connect`", None), Script.calm, [])
  /\ runDisconnectCommand Script.api Script.accountLevel Script.alice Script.calm
     = (Returned ("Unknown action `disconnect`", None), Script.calm, []).
Proof.
  apply (connect_permission_gate Script.api Script.consts Script.accountLevel
           Script.alice (Script.inChannel "alice" "/zoom connect") Script.calm).
  right. split; reflexivity.
Defined.


Lemma connect_panics_iff_no_site_url_witness :
  exists reason,
    result (runConnectCommand Script.api Script.consts Script.userLevel
              Script.alice (Script.inChannel "alice" "/zoom connect")
              (Scenes.noSiteURL (Scenes.connected Script.calm)))
    = Panicked reason.
Proof.
  apply (connect_panics_iff_no_site_url Script.api Script.consts
           Script.userLevel Script.alice
           (Script.inChannel "alice" "/zoom connect")
           (Scenes.noSiteURL (Scenes.connected Script.calm))).
  split; reflexivity.
Defined.

Lemma setting_writes_only_accepted_witness :
  (trace (runSettingCommand Script.api ["use_pmi"; "ask"; "please"] Script.alice
                            Script.calm)
   = [EvUpdatePreferencesForUser "alice" [pmiPreference "alice" "ask"]]
   /\ Script.storedPMI "alice"
        (world (runSettingCommand Script.api ["use_pmi"; "ask"; "please"]
                                  Script.alice Script.calm)) = "ask")
  /\ (trace (runSettingCommand Script.api ["use_pmi"; "maybe"] Script.alice
                               Script.calm) = []
      /\ world (runSettingCommand Script.api ["use_pmi"; "maybe"] Script.alice
                                  Script.calm) = Script.calm).
Proof.
  split.
  - destruct (setting_writes_only_accepted Script.api Script.alice
                ["use_pmi"; "ask"; "please"] Script.calm) as (_ & Hwrite & _).
    assert (nth_error ["use_pmi"; "ask"; "please"] 0 = Some "use_pmi"
            /\ exists v, nth_error ["use_pmi"; "ask"; "please"] 1 = Some v
                         /\ In v pmiSettingValues) as Haccepted.
    { split; [reflexivity|]. exists "ask". split; [reflexivity|].
      right; right; left; reflexivity. }
    destruct (Hwrite Haccepted) as (Htrace & Hworld).
    split; [exact Htrace | rewrite Hworld; reflexivity].
  - destruct (setting_writes_only_accepted Script.api Script.alice
                ["use_pmi"; "maybe"] Script.calm) as (_ & _ & Hnone).
    apply Hnone. intros [_ [v [Hv Hin]]]. injection Hv as <-.
    unfold pmiSettingValues in Hin. cbn [In] in Hin.
    repeat (destruct Hin as [Hin | Hin]; [discriminate Hin|]). exact Hin.
Defined.

Lemma executeCommand_returns_witness :
  exists msg err,
    result (executeCommand Script.api Script.consts Script.userLevel
              (Script.inChannel "alice" "/zoom help me") Script.calm)
    = Returned (msg, err).
Proof.
  assert (nth 0 ["help"; "me"] "" <> "connect") as Hconnect by discriminate.
  exact (executeCommand_returns Script.api Script.consts Script.userLevel
           (Script.inChannel "alice" "/zoom help me") "/zoom" ["help"; "me"]
           Script.calm eq_refl Hconnect).
Defined.

Lemma ExecuteCommand_reports_witness :
  let r := ExecuteCommand Script.api Script.consts Script.userLevel
             (Script.inChannel "alice" "/zoom connect")
             (Script.storeDown Script.calm) in
  result r = Returned tt
  /\ world r
     = Script.withWarnings (Script.storeDown Script.calm)
                           ["failed to execute command"]
  /\ trace r
     = [EvGetUser "alice"; EvGetConfig;
        EvFetchOAuthUserInfo "zoomtoken_" "alice";
        EvStoreOAuthUserState "alice" "town-square" true;
        EvLogWarn "failed to execute command"
                  ["error"; "cannot store state: kv store down"]].
Proof.
  exact (ExecuteCommand_reports Script.api Script.consts Script.userLevel
           (Script.inChannel "alice" "/zoom connect") ""
           (Some (errorsWrap (ofAppError (Script.failure "kv store down"))
                             "cannot store state"))
           (Script.storeDown Script.calm) (Script.storeDown Script.calm)
           [EvGetUser "alice"; EvGetConfig;
            EvFetchOAuthUserInfo "zoomtoken_" "alice";
            EvStoreOAuthUserState "alice" "town-square" true]
           eq_refl).
Defined.

Lemma start_creation_failure_is_silent_witness :
  let r := ExecuteCommand Script.api Script.consts Script.userLevel
             (Script.inChannel "alice" "/zoom start team sync")
             (Scenes.creationDown (Script.prefers "false" Script.calm)) in
  result r = Returned tt
  /\ world r
     = Script.withWarnings
         (Scenes.creationDown (Script.prefers "false" Script.calm))
         ["failed to execute command"]
  /\ trace r
     = [EvGetUser "alice";
        EvGetChannelMember "town-square" "alice";
        EvCheckPreviousMessages "town-square";
        EvAuthenticateAndFetchZoomUser Script.alice;
        EvGetPMISettingData "alice";
        EvCreateMeetingWithoutPMI Script.alice Script.zoomAlice "town-square"
                                  "Zoom Meeting";
        EvLogWarn "failed to execute command"
                  ["error"; "error while create new meeting"]]
  /\ count isEphemeralPost (trace r) = 0
  /\ count isPostMeeting (trace r) = 0.
Proof.
  cbv zeta.
  assert (passesGuards Script.api
            (Script.inChannel "alice" "/zoom start team sync") Script.alice
            (Scenes.creationDown (Script.prefers "false" Script.calm))
            (Scenes.creationDown (Script.prefers "false" Script.calm)))
    as Hguards.
  { do 4 eexists; split; reflexivity. }
  assert ("false" <> "") as He by discriminate.
  assert ("false" <> "ask") as Ha by discriminate.
  assert ("false" <> "true") as Ht by discriminate.
  exact (start_creation_failure_is_silent Script.api Script.consts
           Script.userLevel (Script.inChannel "alice" "/zoom start team sync")
           ["team"; "sync"] Script.alice Script.zoomAlice "false" noMeeting
           (errorsNew "provider timeout")
           (Scenes.creationDown (Script.prefers "false" Script.calm))
           (Scenes.creationDown (Script.prefers "false" Script.calm))
           (Scenes.creationDown (Script.prefers "false" Script.calm))
           (Scenes.creationDown (Script.prefers "false" Script.calm))
           (Scenes.creationDown (Script.prefers "false" Script.calm))
           (Scenes.creationDown (Script.prefers "false" Script.calm))
           eq_refl eq_refl Hguards eq_refl eq_refl He Ha Ht eq_refl).
Defined.

(** ** Parsing what was parsed *)

Section ScanningFacts.

Import strings.

Ltac split_ifs :=
  repeat match goal with
         | |- context [if ?c then _ else _] =>
           lazymatch c with
           | context [if _ then _ else _] => fail
           | _ => destruct c eqn:?
           end
         end.

Lemma decode_width_bound (b : ascii) (rest : string) :
  1 <= snd (DecodeRuneInString (String b rest)) <= S (String.length rest).
Proof.
  unfold DecodeRuneInString.
  destruct rest as [|b1 [|b2 [|b3 rest']]]; cbn [String.length];
    split_ifs; cbn [snd]; lia.
Qed.

Lemma decode_trunc (s t : string) :
  s <> "" ->
  snd (DecodeRuneInString (s ++ t)) <= String.length s ->
  DecodeRuneInString s = DecodeRuneInString (s ++ t).
Proof.
  intros Hs.
  destruct s as [|b0 [|b1 [|b2 [|b3 s']]]]; [congruence| | | |];
    destruct t as [|c0 [|c1 [|c2 t']]];
    cbn [String.append String.length]; unfold DecodeRuneInString;
    split_ifs; cbn [snd]; intros Hw; try reflexivity; try lia.
Qed.

Lemma decode_space_suffix (s t : string) :
  s <> "" ->
  DecodeRuneInString (s ++ String " " t) = DecodeRuneInString s.
Proof.
  intros Hs.
  destruct s as [|b0 [|b1 [|b2 [|b3 s']]]]; [congruence| | | |];
    destruct t as [|c0 [|c1 [|c2 t']]];
    cbn [String.append]; unfold DecodeRuneInString;
    split_ifs; try reflexivity;
    repeat match goal with
           | H : (_ && _)%bool = true |- _ => apply andb_prop in H; destruct H
           | H : byte_in _ _ " " = true |- _ => vm_compute in H; discriminate H
           end.
Qed.

Lemma fieldsLoop_space_suffix (f t : string) :
  forall skip start,
    skip <= String.length f ->
    fieldsLoop (f ++ String " " t) skip start
    = (fieldsLoop f skip start ++ Fields t)%list.
Proof.
  induction f as [|b rest IH]; intros skip start Hskip.
  - cbn [String.length] in Hskip. assert (skip = 0) as -> by lia.
    destruct start; reflexivity.
  - cbn [String.append fieldsLoop]. cbn [String.length] in Hskip.
    destruct skip as [|k]; [|apply IH; lia].
    change (String b (rest ++ String " " t)) with (String b rest ++ String " " t).
    rewrite decode_space_suffix by discriminate.
    pose proof (decode_width_bound b rest) as Hw.
    destruct (DecodeRuneInString (String b rest)) as [r w]. cbn [snd] in Hw.
    destruct (IsSpace r).
    + destruct start; cbn [app]; rewrite IH by lia; reflexivity.
    + apply IH. lia.
Qed.

Lemma Fields_Join_words (fs : list string) :
  Forall word fs -> Fields (Join fs " ") = fs.
Proof.
  induction 1 as [|f more Hf Hmore IH]; [reflexivity|].
  destruct more as [|g more'].
  - exact Hf.
  - change (Join (f :: g :: more') " ") with (f ++ String " " (Join (g :: more') " ")).
    unfold Fields at 1. rewrite fieldsLoop_space_suffix by lia.
    fold (Fields f). rewrite Hf, IH. reflexivity.
Qed.

Lemma scanTo_skip_bound (n : nat) :
  forall s skip start, skip - n <= snd (fst (scanTo n s skip start)).
Proof.
  induction n as [|n IH]; intros s skip start; [cbn; lia|].
  destruct s as [|b rest]; [cbn; lia|].
  cbn [scanTo]. destruct skip as [|k].
  - lia.
  - specialize (IH rest k (push start b)). lia.
Qed.

Lemma scanTo_isolated (g s : string) :
  forall skip start pre st,
    skip <= String.length g ->
    scanTo (String.length g) (g ++ s) skip start = (pre, 0, st) ->
    fieldsLoop g skip start = (pre ++ flush st)%list.
Proof.
  induction g as [|b g' IH]; intros skip start pre st Hskip Hscan.
  - cbn in Hscan. injection Hscan as <- -> <-. reflexivity.
  - cbn [String.length String.append scanTo] in Hscan.
    cbn [String.length] in Hskip. cbn [fieldsLoop].
    destruct skip as [|k]; [|apply IH; [lia | exact Hscan]].
    change (String b (g' ++ s)) with (String b g' ++ s) in Hscan.
    assert (snd (DecodeRuneInString (String b g' ++ s)) <= String.length (String b g'))
      as Hfit.
    { destruct (DecodeRuneInString (String b g' ++ s)) as [r w]. cbn [snd].
      cbn [String.length].
      destruct (IsSpace r).
      - pose proof (scanTo_skip_bound (String.length g') (g' ++ s) (pred w) None)
          as Hb.
        destruct (scanTo (String.length g') (g' ++ s) (pred w) None)
          as [[out k'] st']. injection Hscan as _ -> _. cbn in Hb. lia.
      - pose proof (scanTo_skip_bound (String.length g') (g' ++ s) (pred w)
                      (extend start b)) as Hb.
        rewrite Hscan in Hb. cbn in Hb. lia. }
    rewrite (decode_trunc (String b g') s) by (discriminate || exact Hfit).
    destruct (DecodeRuneInString (String b g' ++ s)) as [r w].
    cbn [snd String.length] in Hfit.
    destruct (IsSpace r).
    + destruct (scanTo (String.length g') (g' ++ s) (pred w) None)
        as [[out k'] st'] eqn:Hrest.
      injection Hscan as <- -> <-.
      rewrite (IH (pred w) None out st' ltac:(lia) Hrest).
      destruct start; reflexivity.
    + apply IH; [lia | exact Hscan].
Qed.

Lemma append_snoc (g : string) (b : ascii) (rest : string) :
  (g ++ String b "") ++ rest = g ++ String b rest.
Proof. induction g as [|c g' IH]; cbn; [reflexivity | now rewrite IH]. Qed.

Lemma length_snoc (g : string) (b : ascii) :
  String.length (g ++ String b "") = S (String.length g).
Proof. induction g as [|c g' IH]; cbn; [reflexivity | now rewrite IH]. Qed.

Lemma scanTo_S (n : nat) (b : ascii) (rest : string) (skip : nat)
      (start : option string) :
  scanTo (S n) (String b rest) skip start
  = match skip with
    | S k => scanTo n rest k (push start b)
    | O =>
      let (r, w) := DecodeRuneInString (String b rest) in
      if IsSpace r then
        let '(out, k, st) := scanTo n rest (pred w) None in
        ((flush start ++ out)%list, k, st)
      else scanTo n rest (pred w) (extend start b)
    end.
Proof. reflexivity. Qed.

Lemma scanTo_snoc (g : string) (b : ascii) (rest : string) :
  forall skip0 start0 out k st,
    scanTo (String.length g) (g ++ String b rest) skip0 start0 = (out, k, st) ->
    scanTo (S (String.length g)) (g ++ String b rest) skip0 start0
    = (let '(o2, k2, st2) := scanTo 1 (String b rest) k st in
       ((out ++ o2)%list, k2, st2)).
Proof.
  induction g as [|c g' IH]; intros skip0 start0 out k st Hscan.
  - cbn [String.length String.append scanTo] in Hscan.
    injection Hscan as <- <- <-. cbn [String.length String.append].
    destruct (scanTo 1 (String b rest) skip0 start0) as [[o2 k2] st2].
    reflexivity.
  - cbn [String.length String.append] in *.
    rewrite scanTo_S in Hscan. rewrite scanTo_S.
    destruct skip0 as [|k0].
    + destruct (DecodeRuneInString (String c (g' ++ String b rest))) as [r w].
      destruct (IsSpace r).
      * destruct (scanTo (String.length g') (g' ++ String b rest) (pred w) None)
          as [[out' k'] st'] eqn:Hrest.
        injection Hscan as <- <- <-.
        rewrite (IH (pred w) None out' k' st' Hrest).
        destruct (scanTo 1 (String b rest) k' st') as [[o2 k2] st2].
        now rewrite app_assoc.
      * exact (IH (pred w) (extend start0 c) out k st Hscan).
    + exact (IH k0 (push start0 c) out k st Hscan).
Qed.

Lemma tracked_step (g : string) (b : ascii) (rest : string) (skip k : nat) :
  tracked (Some g) skip (String b rest) ->
  scanTo 1 (String b rest) skip (Some g) = ([], k, Some (g ++ String b "")) ->
  tracked (Some (g ++ String b "")) k rest.
Proof.
  unfold tracked. intros Hg Hstep.
  rewrite length_snoc, append_snoc.
  rewrite (scanTo_snoc g b rest 0 None [] skip (Some g) Hg), Hstep. reflexivity.
Qed.

Lemma fieldsLoop_words (s : string) :
  forall skip start,
    skip <= String.length s -> tracked start skip s ->
    Forall word (fieldsLoop s skip start).
Proof.
  induction s as [|b rest IH]; intros skip start Hskip Htracked.
  - cbn [String.length] in Hskip. assert (skip = 0) as -> by lia.
    destruct start as [g|]; cbn [fieldsLoop]; [|constructor].
    constructor; [|constructor]. unfold tracked in Htracked.
    unfold word, Fields.
    now rewrite (scanTo_isolated g "" 0 None [] (Some g) ltac:(lia) Htracked).
  - cbn [fieldsLoop]. cbn [String.length] in Hskip.
    destruct skip as [|k].
    + pose proof (decode_width_bound b rest) as Hw.
      destruct (DecodeRuneInString (String b rest)) as [r w] eqn:Hdec.
      cbn [snd] in Hw.
      destruct (IsSpace r) eqn:Hspace.
      * destruct start as [g|].
        -- constructor; [|apply IH; [lia | exact I]].
           unfold tracked in Htracked. unfold word, Fields.
           now rewrite (scanTo_isolated g (String b rest) 0 None [] (Some g)
                          ltac:(lia) Htracked).
        -- apply IH; [lia | exact I].
      * apply IH; [lia|].
        destruct start as [g|]; cbn [extend].
        -- apply (tracked_step g b rest 0 (pred w) Htracked).
           rewrite scanTo_S, Hdec, Hspace. reflexivity.
        -- unfold tracked. cbn [String.length String.append].
           rewrite scanTo_S, Hdec, Hspace. reflexivity.
    + apply IH; [lia|].
      destruct start as [g|]; cbn [push]; [|exact I].
      apply (tracked_step g b rest (S k) k Htracked). reflexivity.
Qed.

Lemma Fields_words (s : string) : Forall word (Fields s).
Proof. apply fieldsLoop_words; [lia | exact I]. Qed.

Lemma Fields_normalised (s : string) : Fields (Join (Fields s) " ") = Fields s.
Proof. apply Fields_Join_words, Fields_words. Qed.

End ScanningFacts.

(** X21. [parseCommand] sees its input through its tokens only: the
    command rewritten as its tokens joined by single spaces parses to the
    same command, action and topic, and panics when the original does. *)
Theorem parseCommand_normalised (raw : string) :
  parseCommand (strings.Join (strings.Fields raw) " ") = parseCommand raw.
Proof.
  unfold parseCommand. now rewrite Fields_normalised.
Qed.

(** X22. The topic that [parseCommand] returns for a "start" command is
    stable: "/zoom start " followed by that topic parses to the command
    "/zoom", the action "start" and the same topic. *)
Theorem parseCommand_topic_round_trip (raw cmd topic : string) :
  parseCommand raw = Returned (cmd, "start", topic) ->
  parseCommand ("/zoom start " ++ topic) = Returned ("/zoom", "start", topic).
Proof.
  intros Hparse.
  pose proof (Fields_words raw) as Hwords.
  destruct (strings.Fields raw) as [|cmd' more] eqn:Hsplit.
  { unfold parseCommand in Hparse. rewrite Hsplit in Hparse. discriminate. }
  rewrite (parseCommand_unfold _ _ _ Hsplit) in Hparse.
  injection Hparse as _ Haction Htopic.
  destruct more as [|action rest]; [discriminate Haction|].
  cbn [hd tl] in *. subst action. cbn in Htopic. subst topic.
  inversion Hwords as [|? ? _ Hmore]; subst.
  inversion Hmore as [|? ? _ Hrest]; subst.
  assert (strings.Fields ("/zoom start " ++ strings.Join rest " ")
          = "/zoom" :: "start" :: rest) as Hagain.
  { change ("/zoom start " ++ strings.Join rest " ")
      with ("/zoom" ++ String " " ("start" ++ String " " (strings.Join rest " "))).
    unfold strings.Fields at 1.
    rewrite fieldsLoop_space_suffix by (cbn; lia).
    unfold strings.Fields at 1.
    rewrite fieldsLoop_space_suffix by (cbn; lia).
    rewrite (Fields_Join_words rest Hrest). reflexivity. }
  rewrite (parseCommand_unfold _ _ _ Hagain). reflexivity.
Qed.

Lemma parseCommand_topic_round_trip_witness :
  parseCommand "/zoom start team sync" = Returned ("/zoom", "start", "team sync").
Proof.
  exact (parseCommand_topic_round_trip "  /zoom   start  team   sync "
           "/zoom" "team sync" eq_refl).
Defined.

(** X23. The dispatcher sees the command text through its tokens only: the
    same invocation with the tokens joined by single spaces as command text
    runs the same, call for call, with the same result. *)
Theorem executeCommand_normalised
        {W : Type} (x : Collaborators W) (k : PackageConstants) (p : Plugin)
        (args : CommandArgs) (w : W) :
  executeCommand x k p
    (withCommand args (strings.Join (strings.Fields (Command args)) " ")) w
  = executeCommand x k p args w.
Proof.
  unfold executeCommand, parseCommand. cbn [Command withCommand].
  rewrite Fields_normalised.
  unfold runConnectCommand, runStartCommand, decideMeeting, postAndTrack,
    deferToOAuth, storeAndPrompt.
  cbn [UserId ChannelId RootId withCommand]. reflexivity.
Qed.
